(** * LiquidDiffract / liquid_calc: data preparation and refinement front end

    A shallow embedding of the Python sources
      - [liquid_diffract/core/data_manip.py]  (helpers on intensity arrays)
      - [liquid_calc/gui/optim_ui.py]         (Q-range cuts, composition table,
                                               S(Q) and refinement entry points)
    together with the two pieces of the numerical core ([core.core]) whose
    text is not part of the sources at hand; those are written from the
    specification and marked as such.

    Conventions of the embedding.
      - The amounts of the composition table and the proportions computed
        from them are binary64 numbers ([float]), added and divided as
        Python adds and divides them.
      - The intensity curves, which the code here compares, cuts and hands
        on to the core, are [list Q]: comparisons ([<], [>]) of finite floats
        are exact, and nothing below depends on the value of a difference of
        two entries except that [x - x] is zero ([zero_norm], up to [Qeq]).
      - A Python call that may raise returns a [result]; [None] is an
        [option].
      - The GUI's [self.data] dictionary is a [gmap string pyval]; text boxes
        are represented by what [np.float] / [np.int] make of their text. *)

From Stdlib Require Import ZArith QArith Lqa Lia Reals Lra List String Sorted.
From Stdlib Require Import Floats.
From stdpp Require Import gmap strings list sorting.

Local Open Scope Q_scope.
Local Open Scope string_scope.
Local Open Scope list_scope.

(** ** Python values, exceptions and results *)

Module Py.

Inductive exn : Type :=
| ValueError
| KeyError
| IndexError
| TypeError
| AttributeError
| ZeroDivisionError
| UnboundLocalError.

Definition exn_eqb (a b : exn) : bool :=
  match a, b with
  | ValueError, ValueError | KeyError, KeyError | IndexError, IndexError
  | TypeError, TypeError | AttributeError, AttributeError
  | ZeroDivisionError, ZeroDivisionError
  | UnboundLocalError, UnboundLocalError => true
  | _, _ => false
  end.

Inductive result (A : Type) : Type :=
| Ok (a : A)
| Raise (e : exn).

Arguments Ok {A} a.
Arguments Raise {A} e.

Definition bind {A B : Type} (r : result A) (k : A -> result B) : result B :=
  match r with
  | Ok a => k a
  | Raise e => Raise e
  end.

Definition raises {A : Type} (r : result A) : bool :=
  match r with
  | Ok _ => false
  | Raise _ => true
  end.

(** [x > y] and [x < y] on floats, as booleans. *)
Definition Qgtb (x y : Q) : bool := negb (Qle_bool x y).
Definition Qltb (x y : Q) : bool := negb (Qle_bool y x).

(** Python's built-in [sum] on a list of floats: binary64 additions from
    left to right, starting from [0].  ([np.float] and [np.int], which the
    sources use, went away with NumPy 1.24, so the interpreter is older than
    Python 3.12, where [sum] began to compensate for rounding.) *)
Definition py_sum (l : list float) : float :=
  fold_left PrimFloat.add l 0%float.

(** [x / y] on floats: a zero divisor ([0.0] or [-0.0]) raises, anything
    else divides as IEEE 754 does. *)
Definition py_div (x y : float) : result float :=
  if (y =? 0)%float then Raise ZeroDivisionError else Ok (x / y)%float.

(** The dynamically typed values kept in the GUI's [data] dictionary:
    numpy arrays, strings, numbers and [None]. *)
Inductive pyval : Type :=
| PArr (a : list Q)
| PStr (s : string)
| PNum (x : Q)
| PNone.

(** [v.size], defined on arrays only. *)
Definition size (v : pyval) : result nat :=
  match v with
  | PArr a => Ok (length a)
  | _ => Raise AttributeError
  end.

Definition as_arr (v : pyval) : result (list Q) :=
  match v with
  | PArr a => Ok a
  | _ => Raise TypeError
  end.

(** [v == s] for a string literal [s]. *)
Definition pystr_eq (v : pyval) (s : string) : bool :=
  match v with
  | PStr t => String.eqb t s
  | _ => false
  end.

Definition getitem {A : Type} (l : list A) (i : nat) : result A :=
  match l !! i with
  | Some a => Ok a
  | None => Raise IndexError
  end.

End Py.

Import Py.

(** ** [core/data_manip.py] *)

Module DataManip.

(** [zero_norm(int_func, _S_inf)]: [shift = int_func[0]] raises [IndexError]
    on an empty array; otherwise the shift is subtracted from every entry.
    The second argument is never read, whatever its type. *)
Definition zero_norm {A : Type} (int_func : list Q) (_S_inf : A)
  : result (list Q) :=
  match int_func with
  | [] => Raise IndexError
  | shift :: _ => Ok (map (fun v => v - shift) int_func)
  end.

Section Smoothing.

(** [scipy.signal.savgol_filter(data, window_length, polyorder)]: a library
    routine, which may itself raise (even window, window longer than the
    data, ...). *)
Variable savgol_filter : list Q -> Z -> Z -> result (list Q).

Definition default_method : string := "savitzky-golay".
Definition default_window_length : Z := 31.
Definition default_poly_order : Z := 3.

(** [smooth_data(data, method='savitzky-golay', window_length=31,
    poly_order=3)].  An omitted keyword argument is [None] here.  The
    function body is a single [if] without [else]: when the test fails the
    function falls off its end and Python returns [None]. *)
Definition smooth_data (data : list Q) (method : option string)
    (window_length poly_order : option Z) : result (option (list Q)) :=
  let method := default default_method method in
  let window_length := default default_window_length window_length in
  let poly_order := default default_poly_order poly_order in
  if String.eqb method "savitzky-golay"
  then bind (savgol_filter data window_length poly_order) (fun y => Ok (Some y))
  else Ok None.

End Smoothing.

End DataManip.

(** ** [CompositionGroupBox]: the composition table and the mapping built
    from it *)

Module Composition.

(** One value of the composition mapping: [(Z, charge, n)]. *)
Definition entry : Type := Z * Z * float.

Definition proportion (e : entry) : float := snd e.

(** A Python [dict] keeps its keys in insertion order; [update] with a key
    already present overwrites the value in place. *)
Definition dict (V : Type) : Type := list (string * V).

Fixpoint dict_update {V : Type} (k : string) (v : V) (d : dict V) : dict V :=
  match d with
  | [] => [(k, v)]
  | (k', v') :: rest =>
      if String.eqb k' k then (k, v) :: rest
      else (k', v') :: dict_update k v rest
  end.

Definition composition : Type := dict entry.

(** A row of the table, its three editable cells read with [np.int],
    [np.int] and [np.float]. *)
Record table_row : Type := {
  cell_Z : Z;
  cell_charge : Z;
  cell_n : float
}.

(** [list.index(x)]: position of the first occurrence, [ValueError] when
    there is none. *)
Fixpoint list_index (x : Z) (l : list Z) : result nat :=
  match l with
  | [] => Raise ValueError
  | y :: rest =>
      if Z.eqb y x then Ok O
      else bind (list_index x rest) (fun i => Ok (S i))
  end.

Section PeriodicTable.

(** [CompositionGroupBox._element_dict], the symbol -> atomic number table
    loaded from [data/pt_data.npy]. *)
Variable _element_dict : dict Z.

(** [str(_key_list[_val_list.index(_Z)])] *)
Definition element_key (_Z : Z) : result string :=
  bind (list_index _Z (map snd _element_dict))
       (fun i => getitem (map fst _element_dict) i).

(** The [for _row_index in range(rowCount())] loop. *)
Fixpoint read_rows (rows : list table_row) (_composition_dict : composition)
  : result composition :=
  match rows with
  | [] => Ok _composition_dict
  | r :: rest =>
      bind (element_key (cell_Z r)) (fun _key =>
        read_rows rest
          (dict_update _key (cell_Z r, cell_charge r, cell_n r)
                       _composition_dict))
  end.

(** [_composition_dict[_el][2] /= _n_total] on one entry. *)
Definition scale_entry (_n_total : float) (kv : string * entry)
  : result (string * entry) :=
  bind (py_div (proportion (snd kv)) _n_total) (fun p =>
    Ok (fst kv, (fst (snd kv), p))).

(** The second loop, entry by entry in the order of the dictionary. *)
Fixpoint scale_entries (_n_total : float) (d : composition)
  : result composition :=
  match d with
  | [] => Ok []
  | kv :: rest =>
      bind (scale_entry _n_total kv) (fun kv' =>
        bind (scale_entries _n_total rest) (fun rest' => Ok (kv' :: rest')))
  end.

(** [_n_total = sum([...])] and the second loop. *)
Definition normalise (d : composition) : result composition :=
  let _n_total := py_sum (map (fun kv => proportion (snd kv)) d) in
  scale_entries _n_total d.

Definition get_composition_dict (rows : list table_row) : result composition :=
  bind (read_rows rows []) normalise.

End PeriodicTable.

(** [if not _composition] *)
Definition is_empty {V : Type} (d : dict V) : bool :=
  match d with
  | [] => true
  | _ :: _ => false
  end.

Definition proportions (d : composition) : list float :=
  map (fun kv => proportion (snd kv)) d.

End Composition.

(** ** The numpy operations used by the Q-range cuts *)

Module Numpy.

(** [np.where(mask)]: the indices at which the mask is true, ascending. *)
Fixpoint where_from (i : nat) (mask : list bool) : list nat :=
  match mask with
  | [] => []
  | b :: rest =>
      if b then i :: where_from (S i) rest else where_from (S i) rest
  end.

Definition np_where (mask : list bool) : list nat := where_from O mask.

(** [arr[indices]] with an index array: [IndexError] as soon as one index
    is out of range. *)
Fixpoint take_indices {A : Type} (arr : list A) (idx : list nat)
  : result (list A) :=
  match idx with
  | [] => Ok []
  | i :: rest =>
      bind (getitem arr i) (fun a =>
        bind (take_indices arr rest) (fun l => Ok (a :: l)))
  end.

(** Position of the first [true], if any. *)
Fixpoint first_true (mask : list bool) : option nat :=
  match mask with
  | [] => None
  | b :: rest => if b then Some O else option_map S (first_true rest)
  end.

(** [np.argmax(mask)] on a boolean array: the first maximum, so the first
    [True] if there is one and index [0] otherwise; an empty array raises
    [ValueError]. *)
Definition np_argmax (mask : list bool) : result nat :=
  match mask with
  | [] => Raise ValueError
  | _ :: _ => Ok (default O (first_true mask))
  end.

(** [a - b] with numpy broadcasting, for the shapes that occur here. *)
Definition np_sub (a b : pyval) : result pyval :=
  match a, b with
  | PArr x, PNum s => Ok (PArr (map (fun v => v - s) x))
  | PNum s, PArr y => Ok (PArr (map (fun v => s - v) y))
  | PNum s, PNum t => Ok (PNum (s - t))
  | PArr x, PArr y =>
      if Nat.eqb (length x) (length y)
      then Ok (PArr (map (fun p => fst p - snd p) (combine x y)))
      else match x, y with
           | _, [t] => Ok (PArr (map (fun v => v - t) x))
           | [s], _ => Ok (PArr (map (fun v => s - v) y))
           | _, _ => Raise ValueError
           end
  | _, _ => Raise TypeError
  end.

End Numpy.

(** ** [OptimUI]: the handlers behind the data, S(Q) and refinement buttons *)

Module OptimUI.

Import Composition Numpy.

(** *** Widgets *)

(** What [np.float] / [np.int] make of the text of a [QLineEdit]: an empty
    box and an unreadable text both raise [ValueError]; only the empty text
    is falsy. *)
Inductive line_edit (A : Type) : Type :=
| Blank
| Garbage
| Parsed (a : A).

Arguments Blank {A}.
Arguments Garbage {A}.
Arguments Parsed {A} a.

Definition text_truthy {A : Type} (e : line_edit A) : bool :=
  match e with
  | Blank => false
  | _ => true
  end.

Definition np_parse {A : Type} (e : line_edit A) : result A :=
  match e with
  | Parsed a => Ok a
  | _ => Raise ValueError
  end.

Record widgets : Type := {
  composition_table : list table_row;
  density_input : line_edit Q;
  qmax_check : bool;
  qmax_input : line_edit Q;
  qmin_check : bool;
  qmin_input : line_edit Q;
  smooth_data_check : bool;
  window_length_input : line_edit Z;
  poly_order_input : line_edit Z;
  mod_func_input : string;
  window_start_input : line_edit Q;
  al_btn : bool;
  fb_btn : bool;
  rmin_input : line_edit Q;
  niter_input : line_edit Z;
  opt_check : bool;
  lb_input : line_edit Q;
  ub_input : line_edit Q
}.

(** *** The numerical core and SciPy, as the handlers call them *)

(** The positional [*args] tuple handed to
    [core.calc_impr_interference_func]. *)
Record eggert_args : Type := {
  a_q_data : pyval;
  a_y_data : pyval;
  a_composition : composition;
  a_r_min : Q;
  a_d_pq : Q;
  a_n_iter : Z;
  a_method : string;
  a_mod_func : pyval;
  a_window_start : pyval;
  a_opt_flag : Z
}.

(** It returns chi-squared alone or the refined curve with chi-squared. *)
Inductive eggert_ret : Type :=
| ChiSq (chi : Q)
| Refined (impr_int_func : pyval) (chi : Q).

Definition unpack2 (r : eggert_ret) : result (pyval * Q) :=
  match r with
  | Refined i c => Ok (i, c)
  | ChiSq _ => Raise TypeError
  end.

Class Core : Type := {
  calc_structure_factor :
    pyval -> pyval -> composition -> Q -> string -> result pyval;
  calc_S_inf : composition -> pyval -> option string -> result pyval;
  calc_F_r :
    pyval -> pyval -> Q -> pyval -> pyval -> option string ->
    result (pyval * pyval);
  get_mod_func : pyval -> pyval -> pyval -> result pyval;
  calc_impr_interference_func : Q -> eggert_args -> result eggert_ret;
  conv_density : Q -> composition -> result Q
}.

(** [OptimUI.minimisation_options] *)
Record solver_options : Type := {
  disp : Z;
  maxiter : Z;
  maxfun : Z;
  ftol : Q;
  gtol : Q
}.

Definition minimisation_options : solver_options :=
  {| disp := 0; maxiter := 15000; maxfun := 15000;
     ftol := 2.22e-8; gtol := 1e-10 |}.

(** [OptimUI.op_method] *)
Definition op_method : string := "L-BFGS-B".

(** One call of [scipy.optimize.minimize(fun, x0, bounds=, args=, options=,
    method=)]. *)
Record minimize_call : Type := {
  mc_fun : Q -> eggert_args -> result eggert_ret;
  mc_x0 : Q;
  mc_bounds : list (Q * Q);
  mc_args : eggert_args;
  mc_options : solver_options;
  mc_method : string
}.

Record optimize_result : Type := {
  opt_x : list Q;
  opt_fun : Q
}.

Class SciPy : Type := {
  savgol_filter : list Q -> Z -> Z -> result (list Q);
  minimize : minimize_call -> result optimize_result
}.

(** *** Handler state: the [data] dictionary and what a handler does to the
    outside *)

Inductive event : Type :=
| Print (msg : string)
| PrintNum (label : string) (x : Q)
| UpdatePlots (snapshot : gmap string pyval)
| SetText (widget : string) (x : Q)
| Minimize (call : minimize_call)
| AppendLog (density_refined : bool)
| ResultsChanged.

Record world : Type := {
  data : gmap string pyval;
  trace : list event
}.

(** How a statement ends: it falls through with a value, executes [return],
    or raises. *)
Inductive ctl (A : Type) : Type :=
| Next (a : A)
| Return
| Throw (e : exn).

Arguments Next {A} a.
Arguments Return {A}.
Arguments Throw {A} e.

(** The world with dictionary [d] after the outputs [t]. *)
Definition W (d : gmap string pyval) (t : list event) : world :=
  {| data := d; trace := t |}.

Definition M (A : Type) : Type := world -> world * ctl A.

Definition ret {A : Type} (a : A) : M A := fun w => (w, Next a).

Definition bindM {A B : Type} (m : M A) (k : A -> M B) : M B :=
  fun w =>
    match m w with
    | (w', Next a) => k a w'
    | (w', Return) => (w', Return)
    | (w', Throw e) => (w', Throw e)
    end.

Definition py_return {A : Type} : M A := fun w => (w, Return).

Definition lift {A : Type} (r : result A) : M A :=
  fun w =>
    match r with
    | Ok a => (w, Next a)
    | Raise e => (w, Throw e)
    end.

(** [self.data[k]] *)
Definition get (k : string) : M pyval :=
  fun w =>
    match data w !! k with
    | Some v => (w, Next v)
    | None => (w, Throw KeyError)
    end.

(** [self.data[k] = v] *)
Definition set (k : string) (v : pyval) : M unit :=
  fun w => ({| data := <[k := v]> (data w); trace := trace w |}, Next tt).

(** [del self.data[k]] *)
Definition del (k : string) : M unit :=
  fun w =>
    match data w !! k with
    | Some _ => ({| data := delete k (data w); trace := trace w |}, Next tt)
    | None => (w, Throw KeyError)
    end.

Definition emit (ev : event) : M unit :=
  fun w => ({| data := data w; trace := trace w ++ [ev] |}, Next tt).

(** [self.optim_plot_widget.update_plots(self.data)] *)
Definition update_plots : M unit :=
  fun w =>
    ({| data := data w; trace := trace w ++ [UpdatePlots (data w)] |}, Next tt).

(** [try: body except e: handler] *)
Definition try_except {A : Type} (e : exn) (body handler : M A) : M A :=
  fun w =>
    match body w with
    | (w', Throw e') => if exn_eqb e e' then handler w' else (w', Throw e')
    | r => r
    end.

(** Calling another method: its [return] ends the callee only. *)
Definition call (m : M unit) : M unit :=
  fun w =>
    match m w with
    | (w', Return) => (w', Next tt)
    | r => r
    end.

(** Reading a local variable that may never have been assigned. *)
Definition local {A : Type} (v : option A) : result A :=
  match v with
  | Some a => Ok a
  | None => Raise UnboundLocalError
  end.

Declare Scope py_scope.
Delimit Scope py_scope with py.
Notation "'let*' x ':=' m 'in' k" := (bindM m (fun x => k))
  (at level 10, x name, m at level 100, k at level 200,
   format "'[v' 'let*'  x  ':='  m  'in' '/' k ']'") : py_scope.
Notation "m '>>' k" := (bindM m (fun _ => k))
  (at level 100, k at level 200, right associativity) : py_scope.

(** What a handler leaves behind when run to its end. *)
Record outcome : Type := {
  out_data : gmap string pyval;
  out_trace : list event;
  out_exn : option exn
}.

Definition run (m : M unit) (d : gmap string pyval) : outcome :=
  match m {| data := d; trace := [] |} with
  | (w, Throw e) =>
      {| out_data := data w; out_trace := trace w; out_exn := Some e |}
  | (w, _) =>
      {| out_data := data w; out_trace := trace w; out_exn := None |}
  end.

Local Open Scope py_scope.

(** *** [plot_data]: the Q-range cuts *)

(** The q-min block of [plot_data]:
    [_fill_val = cor_y[np.argmax(cor_x_cut > _qmin)]],
    [_cut = cor_y[np.where(cor_x_cut > _qmin)]],
    [_padding = [_fill_val] * (len(cor_x_cut) - len(_cut))],
    [np.concatenate((_padding, _cut))].
    Both look-ups index the uncut [cor_y] with positions of [cor_x_cut]. *)
Definition qmin_pad (cor_y cor_x_cut : list Q) (_qmin : Q) : result (list Q) :=
  let mask := map (fun x => Qgtb x _qmin) cor_x_cut in
  bind (np_argmax mask) (fun i =>
  bind (getitem cor_y i) (fun _fill_val =>
  bind (take_indices cor_y (np_where mask)) (fun _cut =>
    let _padding := replicate (length cor_x_cut - length _cut) _fill_val in
    Ok (_padding ++ _cut)))).

(** The "first retained intensity value" of the specification: the
    intensity paired with the first Q above q-min, if any Q is above it. *)
Fixpoint first_retained (_qmin : Q) (xs ys : list Q) : option Q :=
  match xs, ys with
  | x :: xs', y :: ys' =>
      if Qgtb x _qmin then Some y else first_retained _qmin xs' ys'
  | _, _ => None
  end.

Definition cosine_hint : string :=
  "Please set limit for Cosine-window function".

Section Handlers.

Context {core : Core} {scipy : SciPy}.

(** The periodic table of [CompositionGroupBox]. *)
Variable _element_dict : dict Z.

(** [minimize(fun, x0, bounds=, args=, options=, method=)]: the call is
    noted in the trace as it is made, and its result or its exception is
    the optimiser's. *)
Definition call_minimize (c : minimize_call) : M optimize_result :=
  emit (Minimize c) >> lift (minimize c).

(** The body of [smooth_check_toggled] when the smoothing box is ticked, up
    to the replot that ends the method ([setEnabled] calls only change the
    look of the widgets). *)
Definition smooth_checked (ui : widgets) : M unit :=
  let* y := get "cor_y_cut" in
  let* n := lift (size y) in
  if Nat.eqb n 0 then py_return else
  let* wp :=
    try_except ValueError
      (let* _window_length := lift (np_parse (window_length_input ui)) in
       let* _poly_order := lift (np_parse (poly_order_input ui)) in
       ret (_window_length, _poly_order))
      py_return in
  if (snd wp >=? fst wp)%Z then
    emit (Print "Warning: polyorder must be less than window_length") >>
    py_return
  else
  let* y := get "cor_y_cut" in
  let* y := lift (as_arr y) in
  let* smoothed :=
    lift (DataManip.smooth_data savgol_filter y None
            (Some (fst wp)) (Some (snd wp))) in
  set "cor_y_cut" (match smoothed with Some a => PArr a | None => PNone end).

(** [plot_data], first block: "Cut q at qmax first (if selected) and define
    cor_x_cut"; without a q-max the cut arrays are the loaded ones. *)
Definition qmax_block (ui : widgets) : M unit :=
  let qmax_cut := qmax_check ui && text_truthy (qmax_input ui) in
  if qmax_cut then
    let* _qmax := lift (np_parse (qmax_input ui)) in
    let* cor_x := get "cor_x" in
    let* cor_x := lift (as_arr cor_x) in
    let _cut := np_where (map (fun x => Qltb x _qmax) cor_x) in
    let* xs := lift (take_indices cor_x _cut) in
    set "cor_x_cut" (PArr xs) >>
    let* cor_y := get "cor_y" in
    let* cor_y := lift (as_arr cor_y) in
    let* ys := lift (take_indices cor_y _cut) in
    set "cor_y_cut" (PArr ys)
  else
    let* cor_x := get "cor_x" in
    set "cor_x_cut" cor_x >>
    let* cor_y := get "cor_y" in
    set "cor_y_cut" cor_y.

(** [plot_data], second block: "Cut at qmin if selected".  The [ValueError]
    of [np.argmax] on an empty array is swallowed. *)
Definition qmin_block (ui : widgets) : M unit :=
  let qmin_cut := qmin_check ui && text_truthy (qmin_input ui) in
  if qmin_cut then
    let* _qmin := lift (np_parse (qmin_input ui)) in
    try_except ValueError
      (let* cor_y := get "cor_y" in
       let* cor_y := lift (as_arr cor_y) in
       let* cor_x_cut := get "cor_x_cut" in
       let* cor_x_cut := lift (as_arr cor_x_cut) in
       let* padded := lift (qmin_pad cor_y cor_x_cut _qmin) in
       set "cor_y_cut" (PArr padded))
      (ret tt)
  else ret tt.

Definition plot_data (ui : widgets) : M unit :=
  let _ea := PArr [] in
  set "iq_x" _ea >> set "impr_iq_x" _ea >> set "sq_y" _ea >>
  set "fr_x" _ea >> set "fr_y" _ea >>
  set "int_func" _ea >> set "impr_int_func" _ea >>
  set "impr_fr_x" _ea >> set "impr_fr_y" _ea >>
  set "cor_x_cut" _ea >> set "cor_y_cut" _ea >>
  qmax_block ui >>
  qmin_block ui >>
  set "modification" (PNum 1) >>
  if smooth_data_check ui
  then call (smooth_checked ui >> update_plots)
  else update_plots.

Definition smooth_check_toggled (ui : widgets) : M unit :=
  (if smooth_data_check ui then smooth_checked ui else call (plot_data ui)) >>
  update_plots.

(** *** [on_click_calc_sq] *)

(** The radio buttons choose [_method]; with neither ticked the name stays
    unassigned. *)
Definition sq_method (ui : widgets) : option string :=
  if al_btn ui then Some "ashcroft-langreth"
  else if fb_btn ui then Some "faber-ziman"
  else None.

Definition on_click_calc_sq (ui : widgets) : M unit :=
  let* x := get "cor_x_cut" in
  let* n := lift (size x) in
  if Nat.eqb n 0 then py_return else
  let* _composition :=
    lift (get_composition_dict _element_dict (composition_table ui)) in
  if is_empty _composition then py_return else
  set "impr_iq_x" (PArr []) >>
  set "impr_fr_x" (PArr []) >>
  set "impr_fr_y" (PArr []) >>
  set "impr_int_func" (PArr []) >>
  set "mod_func" (PStr (mod_func_input ui)) >>
  let* mf := get "mod_func" in
  (if pystr_eq mf "Cosine-window" then
     try_except ValueError
       (let* ws := lift (np_parse (window_start_input ui)) in
        set "window_start" (PNum ws))
       (emit (Print cosine_hint) >> py_return)
   else set "window_start" PNone) >>
  let _method := sq_method ui in
  let* _rho_0 := lift (np_parse (density_input ui)) in
  let* x := get "cor_x_cut" in
  set "iq_x" x >>
  let* x := get "cor_x_cut" in
  let* y := get "cor_y_cut" in
  let* method := lift (local _method) in
  let* sq := lift (calc_structure_factor x y _composition _rho_0 method) in
  set "sq_y" sq >>
  let* x := get "cor_x_cut" in
  let* _S_inf := lift (calc_S_inf _composition x None) in
  let* sq := get "sq_y" in
  let* i := lift (np_sub sq _S_inf) in
  set "int_func" i >>
  let* iq_x := get "iq_x" in
  let* i := get "int_func" in
  let* mf := get "mod_func" in
  let* ws := get "window_start" in
  let* fr := lift (calc_F_r iq_x i _rho_0 mf ws None) in
  set "fr_x" (fst fr) >>
  set "fr_y" (snd fr) >>
  let* iq_x := get "iq_x" in
  let* mf := get "mod_func" in
  let* ws := get "window_start" in
  let* m := lift (get_mod_func iq_x mf ws) in
  set "modification" m >>
  update_plots.

(** *** [on_click_refine] *)

Definition on_click_refine (ui : widgets) : M unit :=
  try_except KeyError (del "chi_sq" >> del "refined_rho") (ret tt) >>
  let* i := get "int_func" in
  let* n := lift (size i) in
  if Nat.eqb n 0 then py_return else
  set "mod_func" (PStr (mod_func_input ui)) >>
  let* mf := get "mod_func" in
  (if pystr_eq mf "Cosine-window" then
     try_except ValueError
       (let* ws := lift (np_parse (window_start_input ui)) in
        set "window_start" (PNum ws))
       (emit (Print cosine_hint) >> py_return)
   else ret tt) >>
  let* _composition :=
    lift (get_composition_dict _element_dict (composition_table ui)) in
  if is_empty _composition then py_return else
  let _method := sq_method ui in
  let* _rho_0 := lift (np_parse (density_input ui)) in
  let* _r_min := lift (np_parse (rmin_input ui)) in
  let _d_pq := 2.9 in
  let* _n_iter := lift (np_parse (niter_input ui)) in
  let* _rho_temp :=
    if opt_check ui then
      let* b :=
        try_except ValueError
          (let* _lb := lift (np_parse (lb_input ui)) in
           let* _ub := lift (np_parse (ub_input ui)) in
           ret (_lb, _ub))
          py_return in
      let _bounds := [b] in
      let* x := get "cor_x_cut" in
      let* y := get "cor_y_cut" in
      let* method := lift (local _method) in
      let* mf := get "mod_func" in
      let* ws := get "window_start" in
      let _args :=
        {| a_q_data := x; a_y_data := y; a_composition := _composition;
           a_r_min := _r_min; a_d_pq := _d_pq; a_n_iter := _n_iter;
           a_method := method; a_mod_func := mf; a_window_start := ws;
           a_opt_flag := 1 |} in
      emit (Print "*************************") >>
      emit (Print "Finding optimal density...") >>
      let c :=
        {| mc_fun := calc_impr_interference_func; mc_x0 := _rho_0;
           mc_bounds := _bounds; mc_args := _args;
           mc_options := minimisation_options; mc_method := op_method |} in
      let* _opt_result := call_minimize c in
      let* x0 := lift (getitem (opt_x _opt_result) 0) in
      set "refined_rho" (PNum x0) >>
      emit (PrintNum "Refined density = " x0) >>
      emit (PrintNum "Chi^2 = " (opt_fun _opt_result)) >>
      emit (SetText "density_output" x0) >>
      let* _mass_density := lift (conv_density x0 _composition) in
      emit (SetText "mass_density" _mass_density) >>
      ret x0
    else ret _rho_0 in
  let* x := get "cor_x_cut" in
  let* i := get "int_func" in
  let* method := lift (local _method) in
  let* mf := get "mod_func" in
  let* ws := get "window_start" in
  let _args :=
    {| a_q_data := x; a_y_data := i; a_composition := _composition;
       a_r_min := _r_min; a_d_pq := _d_pq; a_n_iter := _n_iter;
       a_method := method; a_mod_func := mf; a_window_start := ws;
       a_opt_flag := 0 |} in
  let* r := lift (calc_impr_interference_func _rho_temp _args) in
  let* ic := lift (unpack2 r) in
  set "impr_int_func" (fst ic) >>
  set "chi_sq" (PNum (snd ic)) >>
  emit (SetText "chi_sq_output" (snd ic)) >>
  let* iq_x := get "iq_x" in
  let* impr := get "impr_int_func" in
  let* mf := get "mod_func" in
  let* ws := get "window_start" in
  let* fr := lift (calc_F_r iq_x impr _rho_temp mf ws None) in
  set "impr_fr_x" (fst fr) >>
  set "impr_fr_y" (snd fr) >>
  let* iq_x := get "iq_x" in
  set "impr_iq_x" iq_x >>
  let* _mod_func := get "mod_func" in
  set "mod_func" (PStr "None") >>
  update_plots >>
  set "mod_func" _mod_func >>
  emit (AppendLog (opt_check ui)) >>
  emit ResultsChanged.

End Handlers.

(** The call of [minimize] that a refinement with the density box ticked
    is expected to make: the refiner in its chi-squared-only mode as
    objective, one free parameter starting at the density typed in and
    boxed by the two bounds typed in, and the solver settings of the
    class. *)
Definition density_search_call {core : Core} (ui : widgets)
    (c : composition) (x y ws : pyval) (_rho_0 _r_min _lb _ub : Q)
    (_n_iter : Z) (_method : string) : minimize_call :=
  {| mc_fun := calc_impr_interference_func;
     mc_x0 := _rho_0;
     mc_bounds := [(_lb, _ub)];
     mc_args :=
       {| a_q_data := x; a_y_data := y; a_composition := c;
          a_r_min := _r_min; a_d_pq := 2.9; a_n_iter := _n_iter;
          a_method := _method; a_mod_func := PStr (mod_func_input ui);
          a_window_start := ws; a_opt_flag := 1 |};
     mc_options :=
       {| disp := 0; maxiter := 15000; maxfun := 15000;
          ftol := 2.22e-8; gtol := 1e-10 |};
     mc_method := "L-BFGS-B" |}.

(** *** Vocabulary for what the handlers leave behind *)

(** The listed entries of the dictionary are what they were. *)
Definition kept (keys : list string) (d d' : gmap string pyval) : Prop :=
  Forall (fun k => d' !! k = d !! k) keys.

(** The listed entries are what they were or hold an empty array. *)
Definition kept_or_emptied (keys : list string) (d d' : gmap string pyval)
  : Prop :=
  Forall (fun k => d' !! k = d !! k \/ d' !! k = Some (PArr [])) keys.

(** The dictionary after [on_click_calc_sq] has dropped the refined curves
    and noted the modification function. *)
Definition calc_sq_cleared (ui : widgets) (d : gmap string pyval)
  : gmap string pyval :=
  <["mod_func" := PStr (mod_func_input ui)]>
    (<["impr_int_func" := PArr []]>
       (<["impr_fr_y" := PArr []]>
          (<["impr_fr_x" := PArr []]>
             (<["impr_iq_x" := PArr []]> d)))).

(** [on_click_refine] first forgets the previous chi-squared and refined
    density; a missing ['chi_sq'] ends the [try] block before
    ['refined_rho'] is looked at. *)
Definition refine_forgotten (d : gmap string pyval) : gmap string pyval :=
  match d !! "chi_sq" with
  | None => d
  | Some _ =>
      match d !! "refined_rho" with
      | None => delete "chi_sq" d
      | Some _ => delete "refined_rho" (delete "chi_sq" d)
      end
  end.

End OptimUI.

(** ** The numerical core, as specified

    [core/core.py] is not among the sources; the modification function and
    the Eggert refiner below follow sections 4.2 and 4.4 of the
    specification. *)

Module CoreSpec.

Local Open Scope R_scope.

(** Modelled from the spec: the modes of [core.core]'s modification
    function, "none | lorch | cosine-window". *)
Inductive mod_func : Type :=
| ModNone
| Lorch
| CosineWindow.

(** Modelled from the spec: "Qmax taken as the maximum Q present". *)
Definition Qmax (qs : list R) : R :=
  match qs with
  | [] => 0
  | q :: rest => fold_left Rmax rest q
  end.

(** Modelled from the spec: the cosine-window envelope of [core.core]'s
    modification function, which is missing from the sources.  "1 for Q
    below the window-start value, a half-cosine taper to 0 between
    window-start and Qmax for Q at or above it"; "window-start >= Qmax =>
    taper degenerates to a constant 1 up to Qmax". *)
Definition cosine_window (window_start q_max q : R) : R :=
  if Rlt_dec q window_start then 1
  else if Rle_dec q_max window_start then 1
  else (1 + cos (PI * ((q - window_start) / (q_max - window_start)))) / 2.

(** Modelled from the spec: the Lorch envelope, "sin(pi Q/Qmax)/(pi Q/Qmax)
    over the full Q range". *)
Definition lorch (q_max q : R) : R :=
  sin (PI * q / q_max) / (PI * q / q_max).

(** Modelled from the spec: [modification_function(Q, mode, window_start)]
    of [core.core], a damping sequence aligned with the Q sequence.
    Cosine-window without a window start is rejected. *)
Definition modification_function (qs : list R) (mode : mod_func)
    (window_start : option R) : option (list R) :=
  match mode with
  | ModNone => Some (map (fun _ => 1) qs)
  | Lorch => Some (map (lorch (Qmax qs)) qs)
  | CosineWindow =>
      match window_start with
      | Some w => Some (map (cosine_window w (Qmax qs)) qs)
      | None => None
      end
  end.

Section Eggert.

(** The input intensity, curves in Q-space and in r-space, and the scalar
    type of chi-squared. *)
Variables intensity curve rcurve scalar : Type.

(** Section 4.1: S(Q) from the input, and S-infinity. *)
Variable structure_factor : intensity -> curve.
Variable S_inf : curve.
(** Section 4.3: i(Q) to g(r). *)
Variable transform : curve -> rcurve.
(** Step b: the part of g(r) below r_min that deviates from its baseline. *)
Variable violation : rcurve -> rcurve.
(** Step c: the violation brought back to Q-space. *)
Variable back_transform : rcurve -> curve.
(** Step d: pointwise difference of two Q-space curves. *)
Variable subtract : curve -> curve -> curve.
(** Integral of the squared deviation below r_min. *)
Variable chi_squared : rcurve -> scalar.

(** Modelled from the spec: the state of [core.core]'s Eggert refiner during
    one invocation, the current i(Q) and the number of loop passes made. *)
Record refiner_state : Type := {
  i_Q : curve;
  corrections : nat
}.

(** Modelled from the spec: step 1 of the refiner, "Initialize: compute
    S(Q), i(Q) = S(Q) - S_inf from the input intensity". *)
Definition interference_function (input : intensity) : curve :=
  subtract (structure_factor input) S_inf.

(** Modelled from the spec: steps 2a-2d of the refiner, one correction of
    i(Q): transform to g(r), measure the violation below r_min,
    back-transform it, subtract it. *)
Definition corrected (i : curve) : curve :=
  let g_r := transform i in
  let delta := violation g_r in
  let correction := back_transform delta in
  subtract i correction.

(** Modelled from the spec: one pass of the refiner's loop body. *)
Definition correction_step (s : refiner_state) : refiner_state :=
  {| i_Q := corrected (i_Q s); corrections := S (corrections s) |}.

(** Modelled from the spec: the refiner's loop, "Iterate exactly n_iter
    times", with no test other than the count. *)
Fixpoint iterate (n_iter : nat) (s : refiner_state) : refiner_state :=
  match n_iter with
  | O => s
  | S k => iterate k (correction_step s)
  end.

(** Modelled from the spec: the Eggert refiner of [core.core] (section 4.4):
    initialise, iterate, then "Finalize: compute chi-squared as a scalar
    summary of the residual violation". *)
Definition eggert_refine (input : intensity) (n_iter : nat)
  : refiner_state * scalar :=
  let s :=
    iterate n_iter
      {| i_Q := interference_function input; corrections := O |} in
  (s, chi_squared (violation (transform (i_Q s)))).

(** Modelled from the spec: the refiner's entry point in [core.core], with
    its "flag selecting between return chi-squared only vs return refined
    curve + chi-squared". *)
Definition calc_impr_interference_func (input : intensity) (n_iter : nat)
    (chi_only : bool) : option curve * scalar :=
  let r := eggert_refine input n_iter in
  if chi_only then (None, snd r) else (Some (i_Q (fst r)), snd r).

End Eggert.

End CoreSpec.

(** ** A small session to run the definitions on *)

Module Samples.

Import Composition OptimUI.

(** A few rows of the periodic table, and a three-row composition table
    (GaAs with the gallium row repeated). *)
Definition sample_elements : dict Z :=
  [("H", 1%Z); ("O", 8%Z); ("Si", 14%Z); ("Ga", 31%Z); ("Ge", 32%Z);
   ("As", 33%Z)].

Definition sample_rows : list table_row :=
  [ {| cell_Z := 31; cell_charge := 0; cell_n := 1%float |};
    {| cell_Z := 33; cell_charge := 0; cell_n := 1%float |};
    {| cell_Z := 31; cell_charge := 3; cell_n := 2%float |} ].

(** Stand-ins for SciPy and for the numerical core. *)
Definition sample_scipy : SciPy :=
  {| savgol_filter := fun y _ _ => Ok y;
     minimize := fun c => Ok {| opt_x := [mc_x0 c]; opt_fun := 0 |} |}.

Definition sample_core : Core :=
  {| calc_structure_factor := fun _ y _ _ _ => Ok y;
     calc_S_inf := fun _ _ _ => Ok (PNum 1);
     calc_F_r := fun x i _ _ _ _ => Ok (x, i);
     get_mod_func := fun x _ _ => Ok x;
     calc_impr_interference_func :=
       fun _ a =>
         if Z.eqb (a_opt_flag a) 1 then Ok (ChiSq 0)
         else Ok (Refined (a_y_data a) 0);
     conv_density := fun rho _ => Ok rho |}.

(** The widgets: q-max 5, q-min 2, no smoothing, no modification function,
    density refinement between 0.01 and 0.1. *)
Definition sample_widgets : widgets :=
  {| composition_table := sample_rows;
     density_input := Parsed 0.05;
     qmax_check := true; qmax_input := Parsed 5;
     qmin_check := true; qmin_input := Parsed 2;
     smooth_data_check := false;
     window_length_input := Parsed 5%Z; poly_order_input := Parsed 3%Z;
     mod_func_input := "None"; window_start_input := Blank;
     al_btn := true; fb_btn := false;
     rmin_input := Parsed 2; niter_input := Parsed 5%Z;
     opt_check := true; lb_input := Parsed 0.01; ub_input := Parsed 0.1 |}.

(** The same with the cosine window chosen and its start left empty. *)
Definition cosine_widgets : widgets :=
  {| composition_table := sample_rows;
     density_input := Parsed 0.05;
     qmax_check := true; qmax_input := Parsed 5;
     qmin_check := true; qmin_input := Parsed 2;
     smooth_data_check := false;
     window_length_input := Parsed 5%Z; poly_order_input := Parsed 3%Z;
     mod_func_input := "Cosine-window"; window_start_input := Blank;
     al_btn := true; fb_btn := false;
     rmin_input := Parsed 2; niter_input := Parsed 5%Z;
     opt_check := true; lb_input := Parsed 0.01; ub_input := Parsed 0.1 |}.

(** The cosine window chosen, its start left empty, and a composition table
    whose only row has amount 0. *)
Definition zero_amount_widgets : widgets :=
  {| composition_table :=
       [ {| cell_Z := 31; cell_charge := 0; cell_n := 0%float |} ];
     density_input := Parsed 0.05;
     qmax_check := true; qmax_input := Parsed 5;
     qmin_check := true; qmin_input := Parsed 2;
     smooth_data_check := false;
     window_length_input := Parsed 5%Z; poly_order_input := Parsed 3%Z;
     mod_func_input := "Cosine-window"; window_start_input := Blank;
     al_btn := true; fb_btn := false;
     rmin_input := Parsed 2; niter_input := Parsed 5%Z;
     opt_check := true; lb_input := Parsed 0.01; ub_input := Parsed 0.1 |}.


(** The sample widgets with other settings of the data options. *)
Definition data_options (qmax_c : bool) (qmax : line_edit Q) (qmin_c : bool)
    (smooth : bool) (wl po : line_edit Z) : widgets :=
  {| composition_table := sample_rows;
     density_input := Parsed 0.05;
     qmax_check := qmax_c; qmax_input := qmax;
     qmin_check := qmin_c; qmin_input := Parsed 2;
     smooth_data_check := smooth;
     window_length_input := wl; poly_order_input := po;
     mod_func_input := "None"; window_start_input := Blank;
     al_btn := true; fb_btn := false;
     rmin_input := Parsed 2; niter_input := Parsed 5%Z;
     opt_check := true; lb_input := Parsed 0.01; ub_input := Parsed 0.1 |}.

(** A five-point curve as loaded, then cut, then with S(Q) computed. *)
Definition sample_curve : gmap string pyval :=
  <["cor_x" := PArr [1; 2; 3; 4; 5]]>
    (<["cor_y" := PArr [10; 20; 30; 40; 50]]>
       (<["int_func" := PArr []]> ∅)).

Definition sample_cut : gmap string pyval :=
  out_data (run (plot_data (scipy := sample_scipy) sample_widgets)
                sample_curve).

Definition sample_session : gmap string pyval :=
  out_data (run (on_click_calc_sq (core := sample_core) sample_elements
                   sample_widgets)
                sample_cut).

(** The optimiser call expected from [sample_session]. *)
Definition sample_call : minimize_call :=
  {| mc_fun := calc_impr_interference_func (Core := sample_core);
     mc_x0 := 0.05;
     mc_bounds := [(0.01, 0.1)];
     mc_args :=
       {| a_q_data := PArr [1; 2; 3; 4];
          a_y_data := PArr [30; 30; 30; 40];
          a_composition :=
            match get_composition_dict sample_elements sample_rows with
            | Ok c => c
            | Raise _ => []
            end;
          a_r_min := 2; a_d_pq := 2.9; a_n_iter := 5;
          a_method := "ashcroft-langreth";
          a_mod_func := PStr "None"; a_window_start := PNone;
          a_opt_flag := 1 |};
     mc_options := minimisation_options;
     mc_method := op_method |}.

End Samples.

(** ** Reading the composition mapping *)

Module CompositionLookup.

Import Composition.






(** An entry with its amount divided by [t]. *)
Definition divided_by (t : float) (kv : string * entry) : string * entry :=
  (fst kv, (fst (snd kv), (proportion (snd kv) / t)%float)).




Definition unknown_rows : list table_row :=
  [ {| cell_Z := 31; cell_charge := 0; cell_n := 1%float |};
    {| cell_Z := 200; cell_charge := 0; cell_n := 1%float |} ].

Definition zero_rows : list table_row :=
  [ {| cell_Z := 31; cell_charge := 0; cell_n := 0%float |};
    {| cell_Z := 33; cell_charge := 0; cell_n := 0%float |} ].

End CompositionLookup.

(** ** Invariants of handler code *)

Module HandlerLogic.

Import OptimUI.

(** Handler code [m] keeps the property [I] of the world: whatever way it
    ends (falling through, returning, raising), [I] still holds. *)
Definition keeps {A : Type} (I : world -> Prop) (m : M A) : Prop :=
  forall w w' r, m w = (w', r) -> I w -> I w'.

(** The dictionary agrees with [d0] on the listed keys. *)
Definition agrees_on (keys : list string) (d0 : gmap string pyval)
    (w : world) : Prop :=
  Forall (fun k => data w !! k = d0 !! k) keys.


(** The outputs so far begin with [pre]. *)
Definition begins_with (pre : list event) (w : world) : Prop :=
  exists t', trace w = pre ++ t'.


(** The entries [plot_data] empties before it cuts. *)
Definition derived_keys : list string :=
  ["iq_x"; "impr_iq_x"; "sq_y"; "fr_x"; "fr_y"; "int_func";
   "impr_int_func"; "impr_fr_x"; "impr_fr_y"].

(** The loaded and cut curve, and what [on_click_calc_sq] computes from
    it. *)
Definition input_keys : list string :=
  ["cor_x"; "cor_y"; "cor_x_cut"; "cor_y_cut"].

Definition unrefined_keys : list string :=
  ["cor_x"; "cor_y"; "cor_x_cut"; "cor_y_cut";
   "iq_x"; "sq_y"; "int_func"; "fr_x"; "fr_y"].

End HandlerLogic.

(** * Properties *)

(** Linear arithmetic over the rationals and over the reals. *)
Ltac qlra := Lqa.lra.
Ltac rlra := Lra.lra.

(** ** [data_manip] *)

Module DataManipFacts.

Import DataManip.

Lemma zero_norm_cons {A : Type} (x : Q) (xs : list Q) (_S_inf : A) :
  zero_norm (x :: xs) _S_inf = Ok ((x - x) :: map (fun v => v - x) xs).
Proof. reflexivity. Qed.

Lemma zero_norm_empty {A : Type} (_S_inf : A) :
  zero_norm [] _S_inf = Raise IndexError.
Proof. reflexivity. Qed.

(** C9.  On a non-empty array [zero_norm] returns the array with its own
    first element subtracted from every entry, so the result starts with a
    zero; whatever is passed as [_S_inf], of whatever type, the result is
    the same. *)
Theorem zero_norm_shift_first_to_zero :
  forall (A B : Type) (int_func : list Q) (_S_inf : A) (other : B),
    int_func <> [] ->
    exists first shifted,
      head int_func = Some first /\
      zero_norm int_func _S_inf = Ok shifted /\
      shifted = map (fun v => v - first) int_func /\
      (exists z rest, shifted = z :: rest /\ z == 0) /\
      zero_norm int_func other = Ok shifted.
Proof.
  intros A B int_func s other Hne.
  destruct int_func as [|x xs]; [congruence|].
  exists x, ((x - x) :: map (fun v => v - x) xs).
  repeat split; try reflexivity.
  exists (x - x), (map (fun v => v - x) xs). split; [reflexivity|]. qlra.
Qed.

Lemma zero_norm_shift_first_to_zero_witness :
  [3; 5; 4 # 2] <> [] /\
  exists first shifted,
    head [3; 5; 4 # 2] = Some first /\
    zero_norm [3; 5; 4 # 2] (1 : Q) = Ok shifted /\
    shifted = map (fun v => v - first) [3; 5; 4 # 2] /\
    (exists z rest, shifted = z :: rest /\ z == 0) /\
    zero_norm [3; 5; 4 # 2] "faber-ziman" = Ok shifted.
Proof.
  split; [discriminate|].
  apply (zero_norm_shift_first_to_zero Q string [3; 5; 4 # 2] 1 "faber-ziman").
  discriminate.
Defined.

Section SmoothingFacts.

Variable savgol_filter : list Q -> Z -> Z -> result (list Q).

Lemma smooth_data_default_method (data : list Q) (wl po : option Z) :
  smooth_data savgol_filter data None wl po =
  smooth_data savgol_filter data (Some "savitzky-golay") wl po.
Proof. reflexivity. Qed.

(** C10.  [smooth_data] hands the data to the Savitzky-Golay filter exactly
    when [method] is ['savitzky-golay'] (also its default); for any other
    method string it returns [None]: no exception, and the filter is not
    consulted. *)
Theorem smooth_data_only_savitzky_golay :
  forall (data : list Q) (method : string) (wl po : option Z),
    (method = "savitzky-golay" ->
       smooth_data savgol_filter data (Some method) wl po =
         bind (savgol_filter data (default 31%Z wl) (default 3%Z po))
              (fun y => Ok (Some y)) /\
       smooth_data savgol_filter data None wl po =
         smooth_data savgol_filter data (Some method) wl po) /\
    (method <> "savitzky-golay" ->
       smooth_data savgol_filter data (Some method) wl po = Ok None).
Proof.
  intros data method wl po. split.
  - intros ->. split; reflexivity.
  - intros Hne. unfold smooth_data. simpl.
    destruct (String.eqb_spec method "savitzky-golay") as [E|_];
      [contradiction|reflexivity].
Qed.

End SmoothingFacts.

End DataManipFacts.

(** ** The composition mapping *)

Module CompositionFacts.

Import Composition CompositionLookup Samples.

Lemma dict_update_nonempty {V : Type} (k : string) (v : V) (d : dict V) :
  dict_update k v d <> [].
Proof.
  destruct d as [|[k' v'] rest]; simpl; [discriminate|].
  destruct (String.eqb k' k); discriminate.
Qed.






(** The second loop either divides every entry or, on a zero total with at
    least one entry, raises. *)
Lemma scale_entries_outcome (t : float) (d : composition) :
  scale_entries t d =
    match d with
    | [] => Ok []
    | _ :: _ =>
        if (t =? 0)%float then Raise ZeroDivisionError
        else Ok (map (divided_by t) d)
    end.
Proof.
  induction d as [|kv rest IH]; [reflexivity|].
  cbn [scale_entries]. unfold scale_entry, py_div. rewrite IH.
  destruct (t =? 0)%float; [reflexivity|].
  destruct rest; reflexivity.
Qed.

Lemma divided_keys (t : float) (d : composition) :
  map fst (map (divided_by t) d) = map fst d.
Proof. rewrite List.map_map. reflexivity. Qed.



Lemma normalise_outcome (d : composition) :
  normalise d =
    match d with
    | [] => Ok []
    | _ :: _ =>
        if (py_sum (proportions d) =? 0)%float then Raise ZeroDivisionError
        else Ok (map (divided_by (py_sum (proportions d))) d)
    end.
Proof. unfold normalise. apply scale_entries_outcome. Qed.

Lemma normalise_nonempty (d : composition) :
  d <> [] ->
  normalise d =
    if (py_sum (proportions d) =? 0)%float then Raise ZeroDivisionError
    else Ok (map (divided_by (py_sum (proportions d))) d).
Proof.
  intros Hne. rewrite normalise_outcome. destruct d; [congruence|reflexivity].
Qed.

Lemma normalise_keys (d d' : composition) :
  normalise d = Ok d' -> map fst d' = map fst d.
Proof.
  rewrite normalise_outcome. destruct d as [|kv rest].
  - intros E. injection E as <-. reflexivity.
  - destruct (_ =? 0)%float; [discriminate|].
    intros E. injection E as <-. exact (divided_keys _ (kv :: rest)).
Qed.

Section Rows.

Variable _element_dict : dict Z.

Lemma read_rows_nonempty (rows : list table_row) :
  forall d d',
    rows <> [] \/ d <> [] ->
    read_rows _element_dict rows d = Ok d' ->
    d' <> [].
Proof.
  induction rows as [|r rest IH]; intros d d' Hne Hread; simpl in Hread.
  - destruct Hne as [Hne|Hne]; congruence.
  - destruct (element_key _element_dict (cell_Z r)) as [k|e]; simpl in Hread;
      [|discriminate].
    eapply IH; [|exact Hread].
    right. apply dict_update_nonempty.
Qed.



(** A table with a row never gives an empty mapping. *)
Lemma get_composition_dict_nonempty (rows : list table_row)
    (c : composition) :
  rows <> [] ->
  get_composition_dict _element_dict rows = Ok c ->
  c <> [].
Proof.
  intros Hne Hget. unfold get_composition_dict in Hget.
  destruct (read_rows _element_dict rows []) as [d0|e] eqn:Hread;
    simpl in Hget; [|discriminate].
  pose proof (read_rows_nonempty rows [] d0 (or_introl Hne) Hread) as Hd0.
  pose proof (normalise_keys _ _ Hget) as Hkeys.
  intros ->. destruct d0; [congruence|discriminate].
Qed.



Lemma list_index_found (z : Z) (l : list Z) :
  In z l -> exists i, list_index z l = Ok i /\ (i < length l)%nat.
Proof.
  induction l as [|y l IH]; intros Hin; simpl in *; [contradiction|].
  destruct (Z.eqb_spec y z) as [->|Hyz].
  - exists O. split; [reflexivity|lia].
  - destruct Hin as [Hin|Hin]; [congruence|].
    destruct (IH Hin) as [i [Hi Hlt]]. exists (S i). rewrite Hi. simpl.
    split; [reflexivity|lia].
Qed.

Lemma list_index_missing (z : Z) (l : list Z) :
  ~ In z l -> list_index z l = Raise ValueError.
Proof.
  induction l as [|y l IH]; intros Hnot; simpl; [reflexivity|].
  destruct (Z.eqb_spec y z) as [->|Hne]; [exfalso; apply Hnot; left; reflexivity|].
  rewrite IH; [reflexivity|]. intros Hin. apply Hnot. right. exact Hin.
Qed.

Lemma element_key_found (z : Z) :
  In z (map snd _element_dict) -> exists k, element_key _element_dict z = Ok k.
Proof.
  intros Hin. destruct (list_index_found z _ Hin) as [i [Hi Hlt]].
  unfold element_key. rewrite Hi. simpl. unfold getitem.
  destruct (map fst _element_dict !! i) as [k|] eqn:E.
  - exists k. reflexivity.
  - apply lookup_ge_None in E. rewrite !length_map in *. lia.
Qed.

Lemma element_key_outcome (z : Z) :
  (exists k, element_key _element_dict z = Ok k) \/
  element_key _element_dict z = Raise ValueError.
Proof.
  destruct (in_dec Z.eq_dec z (map snd _element_dict)) as [Hin|Hnot].
  - left. apply element_key_found, Hin.
  - right. unfold element_key. rewrite list_index_missing by exact Hnot.
    reflexivity.
Qed.

Lemma read_rows_total (rows : list table_row) :
  Forall (fun r => In (cell_Z r) (map snd _element_dict)) rows ->
  forall d, exists d', read_rows _element_dict rows d = Ok d'.
Proof.
  induction 1 as [|r rest Hr _ IH]; intros d; simpl.
  - exists d. reflexivity.
  - destruct (element_key_found _ Hr) as [k ->]. simpl. apply IH.
Qed.

End Rows.

Example sample_composition :
  get_composition_dict sample_elements sample_rows =
  Ok [("Ga", (31%Z, 3%Z, (2 / 3)%float)); ("As", (33%Z, 0%Z, (1 / 3)%float))].
Proof. vm_compute. reflexivity. Qed.



End CompositionFacts.

(** ** Masks over a sorted Q axis *)

Module NumpyFacts.

Import Numpy.

Lemma where_from_app (i : nat) (m1 m2 : list bool) :
  where_from i (m1 ++ m2) = where_from i m1 ++ where_from (i + length m1) m2.
Proof.
  revert i. induction m1 as [|b m1 IH]; intros i; simpl.
  - f_equal. lia.
  - rewrite IH. replace (S i + length m1)%nat with (i + S (length m1))%nat by lia.
    destruct b; reflexivity.
Qed.

Lemma where_from_all_true (i : nat) (m : list bool) :
  Forall (fun b => b = true) m -> where_from i m = seq i (length m).
Proof.
  intros H. revert i. induction H as [|b m -> _ IH]; intros i; simpl.
  - reflexivity.
  - rewrite IH. reflexivity.
Qed.

Lemma where_from_all_false (i : nat) (m : list bool) :
  Forall (fun b => b = false) m -> where_from i m = [].
Proof.
  intros H. revert i. induction H as [|b m -> _ IH]; intros i; simpl.
  - reflexivity.
  - apply IH.
Qed.

Lemma first_true_false_then_true (lo hi : list bool) :
  Forall (fun b => b = false) lo ->
  Forall (fun b => b = true) hi ->
  first_true (lo ++ hi) =
    match hi with [] => None | _ :: _ => Some (length lo) end.
Proof.
  intros Hlo Hhi. induction Hlo as [|b lo -> _ IH]; simpl.
  - destruct Hhi as [|b hi -> _]; reflexivity.
  - rewrite IH. destruct hi; reflexivity.
Qed.

Lemma take_indices_seq {A : Type} (arr : list A) (k n : nat) :
  (k + n <= length arr)%nat ->
  take_indices arr (seq k n) = Ok (take n (drop k arr)).
Proof.
  revert k. induction n as [|n IH]; intros k Hlen; simpl.
  - reflexivity.
  - unfold getitem.
    destruct (arr !! k) as [a|] eqn:E;
      [|apply lookup_ge_None in E; lia].
    simpl. rewrite IH by lia. simpl.
    rewrite (drop_S arr a k E). reflexivity.
Qed.

(** A mask that can only switch from false to true along a sorted axis
    splits the axis in two. *)
Lemma sorted_threshold (P : Q -> bool) (l : list Q) :
  (forall x y, x <= y -> P x = true -> P y = true) ->
  StronglySorted Qle l ->
  exists lo hi,
    l = lo ++ hi /\
    Forall (fun x => P x = false) lo /\
    Forall (fun x => P x = true) hi.
Proof.
  intros Hmono. induction 1 as [|a l Hsorted IH Ha].
  - exists [], []. repeat split; constructor.
  - destruct (P a) eqn:Pa.
    + exists [], (a :: l). repeat split; [constructor|].
      constructor; [exact Pa|].
      eapply Forall_impl; [exact Ha|]. intros y Hy. simpl in Hy.
      apply (Hmono a y Hy Pa).
    + destruct IH as (lo & hi & -> & Hlo & Hhi).
      exists (a :: lo), hi. repeat split; [|exact Hhi].
      constructor; [exact Pa|exact Hlo].
Qed.

Lemma filter_all_true {A : Type} (P : A -> bool) (l : list A) :
  Forall (fun x => P x = true) l -> List.filter P l = l.
Proof.
  induction 1 as [|x l Hx _ IH]; simpl; [reflexivity|].
  rewrite Hx, IH. reflexivity.
Qed.

Lemma filter_all_false {A : Type} (P : A -> bool) (l : list A) :
  Forall (fun x => P x = false) l -> List.filter P l = [].
Proof.
  induction 1 as [|x l Hx _ IH]; simpl; [reflexivity|].
  rewrite Hx. exact IH.
Qed.

Lemma Qgtb_true (x y : Q) : Qgtb x y = true <-> y < x.
Proof.
  unfold Qgtb. rewrite negb_true_iff.
  destruct (Qle_bool x y) eqn:E.
  - apply Qle_bool_iff in E. split; [discriminate|]. intros H. qlra.
  - split; [|reflexivity]. intros _.
    destruct (Qlt_le_dec y x) as [H|H]; [exact H|].
    apply Qle_bool_iff in H. congruence.
Qed.

Lemma Qgtb_false (x y : Q) : Qgtb x y = false <-> x <= y.
Proof.
  unfold Qgtb. rewrite negb_false_iff. apply Qle_bool_iff.
Qed.

Lemma Qltb_true (x y : Q) : Qltb x y = true <-> x < y.
Proof. apply (Qgtb_true y x). Qed.

Lemma Qltb_false (x y : Q) : Qltb x y = false <-> y <= x.
Proof. apply (Qgtb_false y x). Qed.

End NumpyFacts.

(** ** The Q-range cuts of [plot_data] *)

Module CutFacts.

Import Composition Numpy NumpyFacts OptimUI.

Lemma np_argmax_nonempty (m : list bool) :
  m <> [] -> np_argmax m = Ok (default O (first_true m)).
Proof. destruct m; [congruence|reflexivity]. Qed.

Lemma mask_split (P : Q -> bool) (lo hi : list Q) :
  Forall (fun x => P x = false) lo ->
  Forall (fun x => P x = true) hi ->
  Forall (fun b => b = false) (map P lo) /\
  Forall (fun b => b = true) (map P hi).
Proof.
  intros Hlo Hhi. split; apply Forall_map.
  - exact Hlo.
  - exact Hhi.
Qed.

Lemma first_retained_split (_qmin : Q) (lo hi ys : list Q) :
  Forall (fun x => Qgtb x _qmin = false) lo ->
  Forall (fun x => Qgtb x _qmin = true) hi ->
  (length (lo ++ hi) <= length ys)%nat ->
  first_retained _qmin (lo ++ hi) ys =
    match hi with [] => None | _ :: _ => ys !! length lo end.
Proof.
  intros Hlo Hhi. revert ys.
  induction Hlo as [|a lo Ha _ IH]; intros ys Hlen; simpl in *.
  - destruct Hhi as [|h hi Hh _]; [reflexivity|].
    destruct ys as [|y ys]; simpl in *; [lia|]. rewrite Hh. reflexivity.
  - destruct ys as [|y ys]; simpl in *; [lia|]. rewrite Ha.
    apply IH. lia.
Qed.

(** What the q-min block computes on a sorted, non-empty Q axis that is no
    longer than the intensity array. *)
Lemma qmin_pad_split (_qmin : Q) (lo hi cor_y : list Q) :
  Forall (fun x => Qgtb x _qmin = false) lo ->
  Forall (fun x => Qgtb x _qmin = true) hi ->
  lo ++ hi <> [] ->
  (length (lo ++ hi) <= length cor_y)%nat ->
  exists _fill_val,
    cor_y !! (match hi with [] => O | _ :: _ => length lo end) = Some _fill_val /\
    qmin_pad cor_y (lo ++ hi) _qmin =
      Ok (replicate (length lo) _fill_val
          ++ take (length hi) (drop (length lo) cor_y)).
Proof.
  intros Hlo Hhi Hne Hlen. rewrite length_app in Hlen.
  destruct (mask_split _ lo hi Hlo Hhi) as [Mlo Mhi].
  set (j := match hi with [] => O | _ :: _ => length lo end).
  assert (Hj : (j < length cor_y)%nat).
  { subst j. destruct hi as [|h hi]; simpl in *; [|lia].
    destruct lo; simpl in *; [congruence|lia]. }
  destruct (lookup_lt_is_Some_2 cor_y j Hj) as [fill Hfill].
  exists fill. split; [exact Hfill|].
  unfold qmin_pad. rewrite map_app.
  rewrite np_argmax_nonempty
    by (rewrite <- map_app; destruct (lo ++ hi); [congruence|discriminate]).
  rewrite (first_true_false_then_true _ _ Mlo Mhi), length_map.
  replace (default O match map (fun x => Qgtb x _qmin) hi with
                     | [] => None
                     | _ :: _ => Some (length lo)
                     end) with j by (subst j; destruct hi; reflexivity).
  simpl. unfold getitem at 1. rewrite Hfill. simpl.
  unfold np_where. rewrite where_from_app, (where_from_all_false _ _ Mlo),
    (where_from_all_true _ _ Mhi), !length_map.
  simpl. rewrite take_indices_seq by lia. simpl.
  rewrite length_app, length_take_le by (rewrite length_drop; lia).
  replace (length lo + length hi - length hi)%nat with (length lo) by lia.
  reflexivity.
Qed.

Lemma qmin_pad_sorted (_qmin : Q) (cor_x_cut cor_y : list Q) :
  StronglySorted Qle cor_x_cut ->
  cor_x_cut <> [] ->
  (length cor_x_cut <= length cor_y)%nat ->
  exists padded,
    qmin_pad cor_y cor_x_cut _qmin = Ok padded /\
    length padded = length cor_x_cut /\
    forall i x,
      cor_x_cut !! i = Some x ->
      (_qmin < x -> padded !! i = cor_y !! i) /\
      (x <= _qmin ->
         padded !! i =
           match first_retained _qmin cor_x_cut cor_y with
           | Some v => Some v
           | None => cor_y !! O
           end).
Proof.
  intros Hsorted Hne Hlen.
  destruct (sorted_threshold (fun x => Qgtb x _qmin) cor_x_cut)
    as (lo & hi & -> & Hlo & Hhi); [|exact Hsorted|].
  { intros x y Hxy Hx. apply Qgtb_true in Hx. apply Qgtb_true. qlra. }
  destruct (qmin_pad_split _qmin lo hi cor_y Hlo Hhi Hne Hlen)
    as (fill & Hfill & ->).
  rewrite (first_retained_split _qmin lo hi cor_y Hlo Hhi Hlen).
  rewrite length_app in Hlen.
  eexists. split; [reflexivity|]. split.
  { rewrite !length_app, length_replicate, length_take_le
      by (rewrite length_drop; lia). reflexivity. }
  intros i x Hi.
  assert (Hcase : (i < length lo)%nat /\ Qgtb x _qmin = false \/
                  (length lo <= i < length lo + length hi)%nat /\
                  Qgtb x _qmin = true).
  { apply lookup_app_Some in Hi. destruct Hi as [Hi|[Hge Hi]].
    - left. split; [eapply lookup_lt_Some; exact Hi|].
      rewrite Forall_lookup in Hlo. exact (Hlo i x Hi).
    - right. split.
      + apply lookup_lt_Some in Hi. lia.
      + rewrite Forall_lookup in Hhi. exact (Hhi _ x Hi). }
  split.
  - intros Hx. destruct Hcase as [[_ Hf]|[Hr _]].
    + apply Qgtb_false in Hf. qlra.
    + rewrite lookup_app_r by (rewrite length_replicate; lia).
      rewrite length_replicate, lookup_take_lt by lia.
      rewrite lookup_drop. f_equal. lia.
  - intros Hx. destruct Hcase as [[Hl _]|[_ Ht]].
    + rewrite lookup_app_l by (rewrite length_replicate; lia).
      rewrite lookup_replicate_2 by lia.
      destruct hi; rewrite Hfill; reflexivity.
    + apply Qgtb_true in Ht. qlra.
Qed.

End CutFacts.

(** ** Running handler code step by step *)

Module StepFacts.

Import OptimUI.

Lemma step_set {B : Type} (k : string) (v : pyval) (f : unit -> M B) d t :
  bindM (set k v) f (W d t) = f tt (W (<[k:=v]> d) t).
Proof. reflexivity. Qed.

Lemma step_get {B : Type} (k : string) (v : pyval) (f : pyval -> M B) d t :
  d !! k = Some v -> bindM (get k) f (W d t) = f v (W d t).
Proof. intros E. unfold bindM, get. simpl. rewrite E. reflexivity. Qed.

Lemma step_lift {A B : Type} (r : result A) (a : A) (f : A -> M B) w :
  r = Ok a -> bindM (lift r) f w = f a w.
Proof. intros ->. reflexivity. Qed.

Lemma step_lift_raise {A B : Type} (r : result A) (e : exn) (f : A -> M B) w :
  r = Raise e -> bindM (lift r) f w = (w, Throw e).
Proof. intros ->. reflexivity. Qed.

Lemma step_emit {B : Type} (ev : event) (f : unit -> M B) d t :
  bindM (emit ev) f (W d t) = f tt (W d (t ++ [ev])).
Proof. reflexivity. Qed.

Lemma step_update_plots {B : Type} (f : unit -> M B) d t :
  bindM update_plots f (W d t) = f tt (W d (t ++ [UpdatePlots d])).
Proof. reflexivity. Qed.

Lemma step_return {A B : Type} (f : A -> M B) w :
  bindM py_return f w = (w, Return).
Proof. reflexivity. Qed.

Lemma step_ret {A B : Type} (a : A) (f : A -> M B) w :
  bindM (ret a) f w = f a w.
Proof. reflexivity. Qed.

Lemma bindM_assoc {A B C : Type} (m : M A) (f : A -> M B) (g : B -> M C) w :
  bindM (bindM m f) g w = bindM m (fun a => bindM (f a) g) w.
Proof. unfold bindM. destruct (m w) as [w' [a| |e]]; reflexivity. Qed.

Lemma bindM_next {A B : Type} (m : M A) (f : A -> M B) w w' a :
  m w = (w', Next a) -> bindM m f w = f a w'.
Proof. intros E. unfold bindM. rewrite E. reflexivity. Qed.

Lemma bindM_return {A B : Type} (m : M A) (f : A -> M B) w w' :
  m w = (w', Return) -> bindM m f w = (w', Return).
Proof. intros E. unfold bindM. rewrite E. reflexivity. Qed.

Lemma bindM_throw {A B : Type} (m : M A) (f : A -> M B) w w' e :
  m w = (w', Throw e) -> bindM m f w = (w', Throw e).
Proof. intros E. unfold bindM. rewrite E. reflexivity. Qed.

Lemma set_run (k : string) (v : pyval) d t :
  set k v (W d t) = (W (<[k:=v]> d) t, Next tt).
Proof. reflexivity. Qed.

Lemma update_plots_run d t :
  update_plots (W d t) = (W d (t ++ [UpdatePlots d]), Next tt).
Proof. reflexivity. Qed.

Lemma try_except_next {A : Type} (e : exn) (body handler : M A) w w' a :
  body w = (w', Next a) -> try_except e body handler w = (w', Next a).
Proof. intros E. unfold try_except. rewrite E. reflexivity. Qed.

Lemma try_except_caught {A : Type} (e : exn) (body handler : M A) w w' :
  body w = (w', Throw e) -> try_except e body handler w = handler w'.
Proof.
  intros E. unfold try_except. rewrite E. destruct e; reflexivity.
Qed.

(** One step of a handler: an assignment, an output, a look-up that is
    known to succeed, or a computation known not to raise. *)
Ltac lookup_known :=
  repeat (rewrite lookup_insert_ne by done);
  first [ eassumption | apply lookup_insert_eq ].

Ltac mstep :=
  first
    [ rewrite step_set
    | rewrite step_emit
    | rewrite step_ret
    | rewrite step_return
    | erewrite step_get by lookup_known
    | erewrite step_lift by reflexivity
    | rewrite bindM_assoc ].

(** As many steps as can be taken, with what is known about the calls of
    the core taken from the hypotheses. *)
Ltac run_on :=
  repeat first [ mstep
               | rewrite step_update_plots
               | erewrite step_lift by eassumption ].

End StepFacts.

(** ** Rules for handler invariants *)

Module HandlerLogicFacts.

Import OptimUI HandlerLogic StepFacts.

Section Rules.

Context {A : Type}.
Variable I : world -> Prop.

Lemma keeps_bind {B : Type} (m : M A) (f : A -> M B) :
  keeps I m -> (forall a, keeps I (f a)) -> keeps I (bindM m f).
Proof.
  intros Hm Hf w w' r E Hi. unfold bindM in E.
  destruct (m w) as [w1 [a| |e]] eqn:Em.
  - exact (Hf a _ _ _ E (Hm _ _ _ Em Hi)).
  - injection E as <- <-. exact (Hm _ _ _ Em Hi).
  - injection E as <- <-. exact (Hm _ _ _ Em Hi).
Qed.

Lemma keeps_ret (a : A) : keeps I (ret a).
Proof. intros w w' r E Hi. injection E as <- <-. exact Hi. Qed.

Lemma keeps_return : keeps I (py_return (A := A)).
Proof. intros w w' r E Hi. injection E as <- <-. exact Hi. Qed.

Lemma keeps_lift (r : result A) : keeps I (lift r).
Proof.
  intros w w' c E Hi. unfold lift in E.
  destruct r; injection E as <- <-; exact Hi.
Qed.

Lemma keeps_try_except (e : exn) (body handler : M A) :
  keeps I body -> keeps I handler -> keeps I (try_except e body handler).
Proof.
  intros Hb Hh w w' r E Hi. unfold try_except in E.
  destruct (body w) as [w1 [a| |e']] eqn:Eb.
  - injection E as <- <-. exact (Hb _ _ _ Eb Hi).
  - injection E as <- <-. exact (Hb _ _ _ Eb Hi).
  - destruct (exn_eqb e e').
    + exact (Hh _ _ _ E (Hb _ _ _ Eb Hi)).
    + injection E as <- <-. exact (Hb _ _ _ Eb Hi).
Qed.

End Rules.

Section WorldRules.

Variable I : world -> Prop.

Lemma keeps_get (k : string) : keeps I (get k).
Proof.
  intros w w' r E Hi. unfold get in E.
  destruct (data w !! k); injection E as <- <-; exact Hi.
Qed.

Lemma keeps_set (k : string) (v : pyval) :
  (forall d t, I (W d t) -> I (W (<[k:=v]> d) t)) -> keeps I (set k v).
Proof.
  intros H [d t] w' r E Hi. injection E as <- <-. exact (H d t Hi).
Qed.

Lemma keeps_del (k : string) :
  (forall d t, I (W d t) -> I (W (delete k d) t)) -> keeps I (del k).
Proof.
  intros H [d t] w' r E Hi. unfold del in E. cbn [data trace] in E.
  destruct (d !! k); injection E as <- <-; [exact (H d t Hi)|exact Hi].
Qed.

Lemma keeps_emit (ev : event) :
  (forall d t, I (W d t) -> I (W d (t ++ [ev]))) -> keeps I (emit ev).
Proof.
  intros H [d t] w' r E Hi. injection E as <- <-. exact (H d t Hi).
Qed.

Lemma keeps_update_plots :
  (forall d t, I (W d t) -> I (W d (t ++ [UpdatePlots d]))) ->
  keeps I update_plots.
Proof.
  intros H [d t] w' r E Hi. injection E as <- <-. exact (H d t Hi).
Qed.

Lemma keeps_call (m : M unit) : keeps I m -> keeps I (call m).
Proof.
  intros Hm w w' r E Hi. unfold call in E.
  destruct (m w) as [w1 [a| |e]] eqn:Em; injection E as <- <-;
    exact (Hm _ _ _ Em Hi).
Qed.

End WorldRules.

(** The two invariants used below. *)
Lemma agrees_on_set (keys : list string) (d0 : gmap string pyval)
    (k : string) (v : pyval) d t :
  ~ In k keys ->
  agrees_on keys d0 (W d t) -> agrees_on keys d0 (W (<[k:=v]> d) t).
Proof.
  unfold agrees_on. cbn [data W]. intros Hk H.
  rewrite List.Forall_forall in *. intros k' Hin.
  rewrite lookup_insert_ne by (intros ->; contradiction). exact (H k' Hin).
Qed.

Lemma agrees_on_del (keys : list string) (d0 : gmap string pyval)
    (k : string) d t :
  ~ In k keys ->
  agrees_on keys d0 (W d t) -> agrees_on keys d0 (W (delete k d) t).
Proof.
  unfold agrees_on. cbn [data W]. intros Hk H.
  rewrite List.Forall_forall in *. intros k' Hin.
  rewrite lookup_delete_ne by (intros ->; contradiction). exact (H k' Hin).
Qed.


Lemma begins_with_emit (pre : list event) (ev : event) d t :
  begins_with pre (W d t) -> begins_with pre (W d (t ++ [ev])).
Proof.
  intros [t' E]. cbn [trace W] in E. exists (t' ++ [ev]). cbn [trace W].
  rewrite E, app_assoc. reflexivity.
Qed.

(** What a run leaves behind, read off the final world. *)
Lemma run_keeps (I : world -> Prop) (m : M unit) (d : gmap string pyval) :
  keeps I m ->
  I (W d []) ->
  I (W (out_data (run m d)) (out_trace (run m d))).
Proof.
  intros Hm Hi. unfold run. fold (W d []).
  destruct (m (W d [])) as [[d' t'] r] eqn:E.
  specialize (Hm _ _ _ E Hi). destruct r; exact Hm.
Qed.

Lemma agrees_on_refl (keys : list string) d t : agrees_on keys d (W d t).
Proof. unfold agrees_on. apply List.Forall_forall. reflexivity. Qed.

Lemma run_agrees (keys : list string) (m : M unit) (d : gmap string pyval) :
  keeps (agrees_on keys d) m ->
  Forall (fun k => out_data (run m d) !! k = d !! k) keys.
Proof.
  intros Hm. exact (run_keeps (agrees_on keys d) m d Hm (agrees_on_refl _ _ _)).
Qed.


(** Proof search: one rule per construct; [side] settles what an
    assignment or an output has to show. *)
Ltac keeps_with side :=
  repeat lazymatch goal with
  | |- keeps _ (bindM _ _) => apply keeps_bind; [|intros ?]
  | |- keeps _ (if ?b then _ else _) => destruct b eqn:?
  | |- keeps _ (match ?x with Some _ => _ | None => _ end) => destruct x
  | |- keeps _ (try_except _ _ _) => apply keeps_try_except
  | |- keeps _ (call _) => apply keeps_call
  | |- keeps _ py_return => apply keeps_return
  | |- keeps _ (ret _) => apply keeps_ret
  | |- keeps _ (lift _) => apply keeps_lift
  | |- keeps _ (get _) => apply keeps_get
  | |- keeps _ (set _ _) => apply keeps_set; intros ? ?; side
  | |- keeps _ (del _) => apply keeps_del; intros ? ?; side
  | |- keeps _ (emit _) => apply keeps_emit; intros ? ?; side
  | |- keeps _ update_plots => apply keeps_update_plots; intros ? ?; side
  end.

Ltac not_listed :=
  simpl; intros Hin;
  repeat (destruct Hin as [Hin|Hin]; [discriminate|]); exact Hin.

Ltac frame_side :=
  first [ apply agrees_on_set; not_listed
        | apply agrees_on_del; not_listed
        | intros H; exact H ].


End HandlerLogicFacts.

(** ** The Q-range cuts, run *)

Module PlotDataFacts.

Import Composition Numpy NumpyFacts OptimUI CutFacts StepFacts Samples.

Lemma Qle_sorted_strongly (l : list Q) : Sorted Qle l -> StronglySorted Qle l.
Proof.
  apply Sorted_StronglySorted. intros x y z. apply Qle_trans.
Qed.

(** On a sorted axis the q-max mask selects a prefix, of both arrays. *)
Lemma qmax_cut_prefix (_qmax : Q) (cor_x cor_y : list Q) :
  StronglySorted Qle cor_x ->
  length cor_x = length cor_y ->
  exists m,
    (m <= length cor_x)%nat /\
    take m cor_x = List.filter (fun x => Qltb x _qmax) cor_x /\
    take_indices cor_x (np_where (map (fun x => Qltb x _qmax) cor_x)) =
      Ok (take m cor_x) /\
    take_indices cor_y (np_where (map (fun x => Qltb x _qmax) cor_x)) =
      Ok (take m cor_y).
Proof.
  intros Hsorted Hlen.
  destruct (sorted_threshold (fun x => negb (Qltb x _qmax)) cor_x)
    as (lo & hi & -> & Hlo & Hhi); [|exact Hsorted|].
  { intros x y Hxy Hx. apply negb_true_iff in Hx. apply negb_true_iff.
    apply Qltb_false in Hx. apply Qltb_false. qlra. }
  assert (Mlo : Forall (fun b => b = true) (map (fun x => Qltb x _qmax) lo)).
  { apply Forall_map. eapply Forall_impl; [exact Hlo|].
    intros x Hx. simpl in *. apply negb_false_iff in Hx. exact Hx. }
  assert (Mhi : Forall (fun b => b = false) (map (fun x => Qltb x _qmax) hi)).
  { apply Forall_map. eapply Forall_impl; [exact Hhi|].
    intros x Hx. simpl in *. apply negb_true_iff in Hx. exact Hx. }
  rewrite length_app in Hlen.
  exists (length lo). split; [rewrite length_app; lia|].
  split.
  { rewrite take_app_length, List.filter_app.
    rewrite (filter_all_true _ lo), (filter_all_false _ hi), app_nil_r;
      [reflexivity| |].
    - eapply Forall_impl; [exact Hhi|]. intros x Hx. simpl in Hx.
      apply negb_true_iff in Hx. exact Hx.
    - eapply Forall_impl; [exact Hlo|]. intros x Hx. simpl in Hx.
      apply negb_false_iff in Hx. exact Hx. }
  unfold np_where.
  rewrite map_app, where_from_app, (where_from_all_true _ _ Mlo),
    (where_from_all_false _ _ Mhi), length_map, app_nil_r.
  rewrite !take_indices_seq by (rewrite ?length_app; lia).
  split; reflexivity.
Qed.

Section WithSciPy.

Context {scipy : SciPy}.

Lemma qmax_block_run (ui : widgets) (cor_x cor_y : list Q) d t :
  d !! "cor_x" = Some (PArr cor_x) ->
  d !! "cor_y" = Some (PArr cor_y) ->
  StronglySorted Qle cor_x ->
  length cor_x = length cor_y ->
  (qmax_check ui && text_truthy (qmax_input ui) = true ->
   exists q, qmax_input ui = Parsed q) ->
  exists m,
    (m <= length cor_x)%nat /\
    (qmax_check ui && text_truthy (qmax_input ui) = false ->
     take m cor_x = cor_x) /\
    (forall q, qmax_check ui = true -> qmax_input ui = Parsed q ->
               take m cor_x = List.filter (fun x => Qltb x q) cor_x) /\
    qmax_block ui (W d t) =
      (W (<["cor_y_cut" := PArr (take m cor_y)]>
            (<["cor_x_cut" := PArr (take m cor_x)]> d)) t, Next tt).
Proof.
  intros Hx Hy Hsorted Hlen Hq. unfold qmax_block.
  destruct (qmax_check ui && text_truthy (qmax_input ui)) eqn:Ecut.
  - destruct (Hq eq_refl) as [q Eq]. rewrite Eq. cbn [np_parse].
    destruct (qmax_cut_prefix q cor_x cor_y Hsorted Hlen)
      as (m & Hm & Hpin & Ex & Ey).
    exists m. split; [exact Hm|]. split; [discriminate|].
    split; [intros q' _ Eq'; injection Eq' as <-; exact Hpin|].
    do 3 mstep. erewrite step_lift by exact Ex. mstep.
    do 2 mstep. erewrite step_lift by exact Ey.
    reflexivity.
  - exists (length cor_x). split; [lia|].
    split; [intros _; apply take_ge; lia|].
    split.
    { intros q Hc Eq. rewrite Hc, Eq in Ecut. discriminate. }
    do 3 mstep. rewrite set_run.
    rewrite take_ge by lia. rewrite take_ge by lia. reflexivity.
Qed.

(** The q-min block on a sorted cut axis. *)
Lemma qmin_block_run (ui : widgets) (_qmin : Q) (cor_y xs ys0 : list Q) d t :
  qmin_check ui = true ->
  qmin_input ui = Parsed _qmin ->
  d !! "cor_y" = Some (PArr cor_y) ->
  d !! "cor_x_cut" = Some (PArr xs) ->
  d !! "cor_y_cut" = Some (PArr ys0) ->
  StronglySorted Qle xs ->
  (length xs <= length cor_y)%nat ->
  length ys0 = length xs ->
  exists d' ys,
    qmin_block ui (W d t) = (W d' t, Next tt) /\
    d' !! "cor_x_cut" = Some (PArr xs) /\
    d' !! "cor_y_cut" = Some (PArr ys) /\
    length ys = length xs /\
    forall i x,
      xs !! i = Some x ->
      (_qmin < x -> ys !! i = cor_y !! i) /\
      (x <= _qmin ->
         ys !! i =
           match first_retained _qmin xs cor_y with
           | Some v => Some v
           | None => cor_y !! O
           end).
Proof.
  intros Hc Hq Hy Hx Hy0 Hsorted Hlen Hlen0. unfold qmin_block.
  rewrite Hc, Hq. cbn [andb text_truthy np_parse]. mstep.
  destruct xs as [|x0 xs'].
  - exists d, ys0. split.
    + apply try_except_caught with (w' := W d t).
      do 4 mstep. reflexivity.
    + split; [exact Hx|]. split; [exact Hy0|]. split; [exact Hlen0|].
      intros i x Hi. discriminate.
  - destruct (qmin_pad_sorted _qmin (x0 :: xs') cor_y Hsorted)
      as (padded & Hpad & Hplen & Hprop); [discriminate|exact Hlen|].
    exists (<["cor_y_cut" := PArr padded]> d), padded. split.
    + eapply try_except_next.
      do 4 mstep. erewrite step_lift by exact Hpad. reflexivity.
    + rewrite lookup_insert_ne by done. rewrite lookup_insert_eq.
      split; [exact Hx|]. split; [reflexivity|]. split; [exact Hplen|].
      exact Hprop.
Qed.

(** C3.  For a scattering curve (equal-length arrays, Q non-decreasing) and a
    q-min set by the caller, [plot_data] ends normally and leaves
    - as Q array the loaded one when no q-max is set, and its entries below
      q-max otherwise;
    - an intensity array of the same length as that Q array, which at every
      position whose Q is above q-min holds the curve's own intensity and at
      every position whose Q is not above q-min holds the first retained
      intensity, the one of the first Q above q-min (when no Q is above
      q-min, the first intensity of the curve).
    (Smoothing, a later step of the same handler, is off.) *)
Theorem plot_data_qmin_cut_pads_with_first_retained :
  forall (ui : widgets) (d : gmap string pyval) (cor_x cor_y : list Q)
         (_qmin : Q),
    d !! "cor_x" = Some (PArr cor_x) ->
    d !! "cor_y" = Some (PArr cor_y) ->
    length cor_x = length cor_y ->
    Sorted Qle cor_x ->
    qmin_check ui = true ->
    qmin_input ui = Parsed _qmin ->
    (qmax_check ui && text_truthy (qmax_input ui) = true ->
     exists q, qmax_input ui = Parsed q) ->
    smooth_data_check ui = false ->
    exists xs ys,
      out_exn (run (plot_data ui) d) = None /\
      out_data (run (plot_data ui) d) !! "cor_x_cut" = Some (PArr xs) /\
      out_data (run (plot_data ui) d) !! "cor_y_cut" = Some (PArr ys) /\
      (qmax_check ui && text_truthy (qmax_input ui) = false -> xs = cor_x) /\
      (forall q, qmax_check ui = true -> qmax_input ui = Parsed q ->
                 xs = List.filter (fun x => Qltb x q) cor_x) /\
      length ys = length xs /\
      forall i x,
        xs !! i = Some x ->
        cor_x !! i = Some x /\
        (_qmin < x -> ys !! i = cor_y !! i) /\
        (x <= _qmin ->
           ys !! i =
             match first_retained _qmin xs cor_y with
             | Some v => Some v
             | None => cor_y !! O
             end).
Proof.
  intros ui d cor_x cor_y _qmin Hx Hy Hlen Hsorted Hc Hq Hmax Hs.
  apply Qle_sorted_strongly in Hsorted.
  unfold run, plot_data. fold (W d []). do 11 mstep.
  match goal with |- context [bindM (qmax_block ui) _ (W ?d0 ?t0)] =>
    destruct (qmax_block_run ui cor_x cor_y d0 t0)
      as (m & Hm & Hoff & Hon & Hrun);
      [lookup_known|lookup_known|exact Hsorted|exact Hlen|exact Hmax|]
  end.
  rewrite (bindM_next _ _ _ _ _ Hrun). clear Hrun.
  assert (Hpre : StronglySorted Qle (take m cor_x)).
  { rewrite <- (take_drop m cor_x) in Hsorted.
    exact (StronglySorted_app_1_l _ _ _ Hsorted). }
  match goal with |- context [bindM (qmin_block ui) _ (W ?d1 ?t1)] =>
    destruct (qmin_block_run ui _qmin cor_y (take m cor_x) (take m cor_y)
                d1 t1)
      as (d' & ys & Hrun & Hxs & Hys & Hylen & Hprop);
      [exact Hc|exact Hq|lookup_known|lookup_known|lookup_known|exact Hpre
      |rewrite length_take; lia|rewrite !length_take; lia|]
  end.
  rewrite (bindM_next _ _ _ _ _ Hrun). clear Hrun.
  mstep. rewrite Hs, update_plots_run. cbn [out_exn out_data data]. unfold W. cbn [data].
  exists (take m cor_x), ys.
  split; [reflexivity|].
  split; [rewrite lookup_insert_ne by done; exact Hxs|].
  split; [rewrite lookup_insert_ne by done; exact Hys|].
  split; [exact Hoff|].
  split; [exact Hon|].
  split; [exact Hylen|].
  intros i x Hi. split.
  - apply lookup_take_Some in Hi. tauto.
  - apply Hprop. exact Hi.
Qed.

End WithSciPy.

Example sample_cut_run :
  out_data (run (plot_data (scipy := sample_scipy) sample_widgets) sample_curve) !! "cor_x_cut"
    = Some (PArr [1; 2; 3; 4]) /\
  out_data (run (plot_data (scipy := sample_scipy) sample_widgets) sample_curve) !! "cor_y_cut"
    = Some (PArr [30; 30; 30; 40]).
Proof. split; vm_compute; reflexivity. Qed.

Lemma plot_data_qmin_cut_pads_with_first_retained_witness :
  exists xs ys,
    out_exn (run (plot_data (scipy := sample_scipy) sample_widgets) sample_curve) = None /\
    out_data (run (plot_data (scipy := sample_scipy) sample_widgets) sample_curve) !! "cor_x_cut"
      = Some (PArr xs) /\
    out_data (run (plot_data (scipy := sample_scipy) sample_widgets) sample_curve) !! "cor_y_cut"
      = Some (PArr ys) /\
    (qmax_check sample_widgets && text_truthy (qmax_input sample_widgets)
       = false -> xs = [1; 2; 3; 4; 5]) /\
    (forall q, qmax_check sample_widgets = true ->
               qmax_input sample_widgets = Parsed q ->
               xs = List.filter (fun x => Qltb x q) [1; 2; 3; 4; 5]) /\
    length ys = length xs /\
    forall i x,
      xs !! i = Some x ->
      [1; 2; 3; 4; 5] !! i = Some x /\
      (2 < x -> ys !! i = [10; 20; 30; 40; 50] !! i) /\
      (x <= 2 ->
         ys !! i =
           match first_retained 2 xs [10; 20; 30; 40; 50] with
           | Some v => Some v
           | None => [10; 20; 30; 40; 50] !! O
           end).
Proof.
  apply (plot_data_qmin_cut_pads_with_first_retained
           (scipy := sample_scipy) sample_widgets sample_curve
           [1; 2; 3; 4; 5] [10; 20; 30; 40; 50] 2).
  - reflexivity.
  - reflexivity.
  - reflexivity.
  - repeat constructor; unfold Qle; simpl; lia.
  - reflexivity.
  - reflexivity.
  - intros _. exists 5. reflexivity.
  - reflexivity.
Defined.

End PlotDataFacts.

(** ** The entry points on missing input *)

Module MissingInputFacts.

Import Composition Numpy OptimUI StepFacts.

Ltac each_key :=
  unfold kept, kept_or_emptied;
  repeat match goal with
         | |- Forall _ (_ :: _) => constructor
         | |- Forall _ [] => constructor
         end.

Section WithCore.

Context {core : Core} {scipy : SciPy}.
Variable _element_dict : dict Z.

Lemma get_composition_dict_empty_table :
  get_composition_dict _element_dict [] = Ok [].
Proof. reflexivity. Qed.

(** [on_click_calc_sq]: no data. *)
Lemma calc_sq_no_data (ui : widgets) d t :
  d !! "cor_x_cut" = Some (PArr []) ->
  on_click_calc_sq _element_dict ui (W d t) = (W d t, Return).
Proof.
  intros Hx. unfold on_click_calc_sq. do 2 mstep. reflexivity.
Qed.

(** [on_click_calc_sq]: an empty composition mapping. *)
Lemma calc_sq_no_composition (ui : widgets) (x : list Q) d t :
  d !! "cor_x_cut" = Some (PArr x) ->
  get_composition_dict _element_dict (composition_table ui) = Ok [] ->
  on_click_calc_sq _element_dict ui (W d t) = (W d t, Return).
Proof.
  intros Hx Hc. destruct x as [|x0 x']; [apply calc_sq_no_data; exact Hx|].
  unfold on_click_calc_sq. do 2 mstep. cbn [length Nat.eqb].
  erewrite step_lift by exact Hc. reflexivity.
Qed.

(** [on_click_calc_sq]: cosine window chosen, no usable window start. *)
Lemma calc_sq_no_window_start (ui : widgets) (x : list Q)
    (c : composition) d t :
  d !! "cor_x_cut" = Some (PArr x) ->
  x <> [] ->
  get_composition_dict _element_dict (composition_table ui) = Ok c ->
  c <> [] ->
  mod_func_input ui = "Cosine-window" ->
  np_parse (window_start_input ui) = Raise ValueError ->
  on_click_calc_sq _element_dict ui (W d t) =
    (W (calc_sq_cleared ui d) (t ++ [Print cosine_hint]), Return).
Proof.
  intros Hx Hne Hc Hcne Hmod Hws.
  destruct x as [|x0 x']; [congruence|]. destruct c as [|kv c']; [congruence|].
  unfold on_click_calc_sq. do 2 mstep. cbn [length Nat.eqb].
  erewrite step_lift by exact Hc. cbn [is_empty].
  do 6 mstep. rewrite Hmod. cbn [pystr_eq String.eqb Ascii.eqb Bool.eqb].
  erewrite bindM_return; [unfold calc_sq_cleared; rewrite Hmod; reflexivity|].
  erewrite try_except_caught.
  2:{ erewrite step_lift_raise by exact Hws. reflexivity. }
  mstep. reflexivity.
Qed.

Lemma forget_block_run d t :
  try_except KeyError (del "chi_sq" >> del "refined_rho")%py (ret tt) (W d t) =
    (W (refine_forgotten d) t, Next tt).
Proof.
  unfold try_except, bindM, del, refine_forgotten, W. cbn [data trace].
  destruct (d !! "chi_sq") as [v|] eqn:E1; [|reflexivity].
  cbn [data trace]. rewrite lookup_delete_ne by done.
  destruct (d !! "refined_rho") as [v'|] eqn:E2; reflexivity.
Qed.

Lemma refine_forgotten_chi_sq d : refine_forgotten d !! "chi_sq" = None.
Proof.
  unfold refine_forgotten.
  destruct (d !! "chi_sq") as [v|] eqn:E1; [|exact E1].
  destruct (d !! "refined_rho") as [v'|] eqn:E2.
  - rewrite lookup_delete_ne by done. apply lookup_delete_eq.
  - apply lookup_delete_eq.
Qed.

Lemma refine_forgotten_refined_rho d :
  refine_forgotten d !! "refined_rho" = None \/
  refine_forgotten d !! "refined_rho" = d !! "refined_rho".
Proof.
  unfold refine_forgotten.
  destruct (d !! "chi_sq") as [v|] eqn:E1; [|right; reflexivity].
  destruct (d !! "refined_rho") as [v'|] eqn:E2.
  - left. apply lookup_delete_eq.
  - left. rewrite lookup_delete_ne by done. exact E2.
Qed.

Lemma refine_forgotten_other d (k : string) :
  k <> "chi_sq" -> k <> "refined_rho" ->
  refine_forgotten d !! k = d !! k.
Proof.
  intros H1 H2. unfold refine_forgotten.
  destruct (d !! "chi_sq") as [v|] eqn:E1; [|reflexivity].
  destruct (d !! "refined_rho") as [v'|] eqn:E2;
    rewrite ?lookup_delete_ne by done; reflexivity.
Qed.

(** [on_click_refine]: no interference function yet. *)
Lemma refine_no_int_func (ui : widgets) d t :
  d !! "int_func" = Some (PArr []) ->
  on_click_refine _element_dict ui (W d t) = (W (refine_forgotten d) t, Return).
Proof.
  intros Hi. unfold on_click_refine.
  rewrite (bindM_next _ _ _ _ _ (forget_block_run d t)).
  erewrite step_get by (rewrite refine_forgotten_other by done; exact Hi).
  mstep. reflexivity.
Qed.

(** [on_click_refine]: cosine window chosen, no usable window start. *)
Lemma refine_no_window_start (ui : widgets) (i : list Q) d t :
  d !! "int_func" = Some (PArr i) ->
  i <> [] ->
  mod_func_input ui = "Cosine-window" ->
  np_parse (window_start_input ui) = Raise ValueError ->
  on_click_refine _element_dict ui (W d t) =
    (W (<["mod_func" := PStr (mod_func_input ui)]> (refine_forgotten d))
       (t ++ [Print cosine_hint]), Return).
Proof.
  intros Hi Hne Hmod Hws. destruct i as [|i0 i']; [congruence|].
  unfold on_click_refine.
  rewrite (bindM_next _ _ _ _ _ (forget_block_run d t)).
  erewrite step_get by (rewrite refine_forgotten_other by done; exact Hi).
  mstep. cbn [length Nat.eqb]. do 2 mstep.
  rewrite Hmod. cbn [pystr_eq String.eqb Ascii.eqb Bool.eqb].
  erewrite bindM_return; [reflexivity|].
  erewrite try_except_caught.
  2:{ erewrite step_lift_raise by exact Hws. reflexivity. }
  mstep. reflexivity.
Qed.

(** What [np.float] raises on a text it cannot read. *)
Lemma np_parse_raises {A : Type} (e : line_edit A) :
  raises (np_parse e) = true -> np_parse e = Raise ValueError.
Proof. destruct e; [reflexivity|reflexivity|discriminate]. Qed.

Lemma np_parse_reads {A : Type} (e : line_edit A) :
  raises (np_parse e) = false -> exists a, e = Parsed a.
Proof. destruct e as [| |a]; [discriminate|discriminate|eauto]. Qed.

(** [on_click_refine]: nothing in the composition table. *)
Lemma refine_no_composition (ui : widgets) (i0 : Q) (i : list Q) d t :
  d !! "int_func" = Some (PArr (i0 :: i)) ->
  composition_table ui = [] ->
  exists d',
    on_click_refine _element_dict ui (W d t) =
      (W d'
         (t ++ if String.eqb (mod_func_input ui) "Cosine-window"
                  && raises (np_parse (window_start_input ui))
               then [Print cosine_hint] else []),
       Return) /\
    forall k, k <> "mod_func" -> k <> "window_start" ->
              d' !! k = refine_forgotten d !! k.
Proof.
  intros Hi Htab.
  destruct (String.eqb (mod_func_input ui) "Cosine-window") eqn:Emod.
  - apply String.eqb_eq in Emod.
    destruct (raises (np_parse (window_start_input ui))) eqn:Ews.
    + rewrite (refine_no_window_start ui _ d t Hi) by
        (try discriminate; try exact Emod; apply np_parse_raises, Ews).
      eexists. split; [reflexivity|].
      intros k Hk _. rewrite lookup_insert_ne by done. reflexivity.
    + destruct (np_parse_reads _ Ews) as [ws Ews'].
      unfold on_click_refine.
      rewrite (bindM_next _ _ _ _ _ (forget_block_run d t)).
      erewrite step_get by (rewrite refine_forgotten_other by done; exact Hi).
      mstep. cbn [length Nat.eqb]. do 2 mstep.
      cbn [pystr_eq]. rewrite Emod, String.eqb_refl, Ews'.
      erewrite bindM_next.
      2:{ eapply try_except_next. cbn [np_parse]. mstep. apply set_run. }
      rewrite Htab. mstep. cbn [is_empty andb]. rewrite app_nil_r.
      eexists. split; [reflexivity|].
      intros k Hk1 Hk2. rewrite !lookup_insert_ne by done. reflexivity.
  - unfold on_click_refine.
    rewrite (bindM_next _ _ _ _ _ (forget_block_run d t)).
    erewrite step_get by (rewrite refine_forgotten_other by done; exact Hi).
    mstep. cbn [length Nat.eqb]. do 2 mstep.
    cbn [pystr_eq]. rewrite Emod. mstep.
    rewrite Htab. mstep. cbn [is_empty andb]. rewrite app_nil_r.
    eexists. split; [reflexivity|].
    intros k Hk1 Hk2. rewrite !lookup_insert_ne by done. reflexivity.
Qed.

Lemma run_returned (m : M unit) d d' t' :
  m (W d []) = (W d' t', Return) ->
  run m d = {| out_data := d'; out_trace := t'; out_exn := None |}.
Proof. intros E. unfold run. fold (W d []). rewrite E. reflexivity. Qed.

(** C8.  On missing input both entry points return normally and leave no
    new result behind.
    [on_click_calc_sq], when no cut data is present, when the composition
    table is empty, or when the cosine window is chosen and the
    window-start box holds no number (the composition table, which is read
    first, being readable): no exception; S(Q), i(Q) and F(r) are what they
    were; refined curves are what they were or emptied; nothing is written
    out in the first two cases, and the console hint alone in the third.
    [on_click_refine], when no interference function has been computed,
    when the cosine window is chosen and the window-start box holds no
    number, or when the composition table is empty: no exception; no
    chi-squared is stored, no new refined density, and the refined curves
    are what they were; the console hint is written out exactly when the
    window start is what stops the handler, and nothing else is. *)
Theorem entry_points_return_on_missing_input :
  forall (ui : widgets) (d : gmap string pyval),
    (forall x,
       d !! "cor_x_cut" = Some (PArr x) ->
       x = [] \/
       composition_table ui = [] \/
       (mod_func_input ui = "Cosine-window" /\
        raises (np_parse (window_start_input ui)) = true /\
        raises (get_composition_dict _element_dict (composition_table ui))
          = false) ->
       out_exn (run (on_click_calc_sq _element_dict ui) d) = None /\
       out_trace (run (on_click_calc_sq _element_dict ui) d) =
         match x, composition_table ui with
         | [], _ => []
         | _, [] => []
         | _ :: _, _ :: _ => [Print cosine_hint]
         end /\
       kept ["sq_y"; "int_func"; "fr_x"; "fr_y"] d
            (out_data (run (on_click_calc_sq _element_dict ui) d)) /\
       kept_or_emptied ["impr_int_func"; "impr_fr_x"; "impr_fr_y"; "impr_iq_x"]
            d (out_data (run (on_click_calc_sq _element_dict ui) d))) /\
    (forall i,
       d !! "int_func" = Some (PArr i) ->
       i = [] \/
       (mod_func_input ui = "Cosine-window" /\
        raises (np_parse (window_start_input ui)) = true) \/
       composition_table ui = [] ->
       out_exn (run (on_click_refine _element_dict ui) d) = None /\
       out_trace (run (on_click_refine _element_dict ui) d) =
         match i with
         | [] => []
         | _ :: _ =>
             if String.eqb (mod_func_input ui) "Cosine-window"
                && raises (np_parse (window_start_input ui))
             then [Print cosine_hint] else []
         end /\
       out_data (run (on_click_refine _element_dict ui) d) !! "chi_sq" = None /\
       (out_data (run (on_click_refine _element_dict ui) d) !! "refined_rho" = None \/
        out_data (run (on_click_refine _element_dict ui) d) !! "refined_rho" = d !! "refined_rho") /\
       kept ["sq_y"; "int_func"; "impr_int_func"; "impr_fr_x"; "impr_fr_y";
             "impr_iq_x"]
            d (out_data (run (on_click_refine _element_dict ui) d))).
Proof.
  intros ui d. split.
  - intros x Hx Hmissing.
    assert (Hsame : forall t,
      on_click_calc_sq _element_dict ui (W d []) = (W d [], Return) ->
      t = [] ->
      out_exn (run (on_click_calc_sq _element_dict ui) d) = None /\
      out_trace (run (on_click_calc_sq _element_dict ui) d) = t /\
      kept ["sq_y"; "int_func"; "fr_x"; "fr_y"] d
           (out_data (run (on_click_calc_sq _element_dict ui) d)) /\
      kept_or_emptied ["impr_int_func"; "impr_fr_x"; "impr_fr_y"; "impr_iq_x"]
           d (out_data (run (on_click_calc_sq _element_dict ui) d))).
    { intros t E ->. rewrite (run_returned _ _ _ _ E).
      cbn [out_exn out_trace out_data].
      split; [reflexivity|]. split; [reflexivity|].
      split; each_key; first [reflexivity | left; reflexivity]. }
    destruct x as [|x0 x'].
    { apply Hsame; [apply calc_sq_no_data, Hx|reflexivity]. }
    destruct (composition_table ui) as [|r0 rows] eqn:Htab.
    { apply Hsame; [|reflexivity].
      apply (calc_sq_no_composition ui (x0 :: x')); [exact Hx|].
      rewrite Htab. reflexivity. }
    destruct Hmissing as [Hnil|[Hnil|(Hmod & Hws & Hok)]]; try discriminate.
    destruct (get_composition_dict _element_dict (r0 :: rows))
      as [c|e] eqn:Hc; [|discriminate].
    assert (Hcne : c <> [])
      by (apply (CompositionFacts.get_composition_dict_nonempty
                   _element_dict (r0 :: rows));
          [discriminate|exact Hc]).
    rewrite <- Htab in Hc.
    rewrite (run_returned _ _ _ _
               (calc_sq_no_window_start ui (x0 :: x') c d [] Hx
                  ltac:(discriminate) Hc Hcne Hmod (np_parse_raises _ Hws))).
    cbn [out_exn out_trace out_data]. unfold calc_sq_cleared.
    split; [reflexivity|]. split; [reflexivity|].
    split; each_key; rewrite ?lookup_insert_ne by done;
      first [reflexivity | right; apply lookup_insert_eq].
  - intros i Hi Hmissing.
    assert (Hforget : forall d' t',
      on_click_refine _element_dict ui (W d []) = (W d' t', Return) ->
      (forall k, k <> "mod_func" -> k <> "window_start" ->
                 d' !! k = refine_forgotten d !! k) ->
      out_exn (run (on_click_refine _element_dict ui) d) = None /\
      out_trace (run (on_click_refine _element_dict ui) d) = t' /\
      out_data (run (on_click_refine _element_dict ui) d) !! "chi_sq" = None /\
      (out_data (run (on_click_refine _element_dict ui) d) !! "refined_rho" = None \/
       out_data (run (on_click_refine _element_dict ui) d) !! "refined_rho" = d !! "refined_rho") /\
      kept ["sq_y"; "int_func"; "impr_int_func"; "impr_fr_x"; "impr_fr_y";
            "impr_iq_x"]
           d (out_data (run (on_click_refine _element_dict ui) d))).
    { intros d' t' E Hd'. rewrite (run_returned _ _ _ _ E).
      cbn [out_exn out_trace out_data].
      split; [reflexivity|]. split; [reflexivity|].
      split; [rewrite Hd' by done; apply refine_forgotten_chi_sq|].
      split; [rewrite Hd' by done; apply refine_forgotten_refined_rho|].
      each_key; rewrite Hd' by done; apply refine_forgotten_other; done. }
    destruct i as [|i0 i'].
    { eapply Hforget; [apply refine_no_int_func, Hi|reflexivity]. }
    destruct Hmissing as [Hnil|[(Hmod & Hws)|Htab]]; [discriminate| |].
    + rewrite Hmod, Hws. cbn [String.eqb Ascii.eqb Bool.eqb andb].
      eapply Hforget;
        [apply (refine_no_window_start ui (i0 :: i') d [] Hi);
           [discriminate|exact Hmod|apply np_parse_raises, Hws]|].
      intros k Hk _. rewrite lookup_insert_ne by done. reflexivity.
    + destruct (refine_no_composition ui i0 i' d [] Hi Htab)
        as (d' & E & Hd').
      eapply Hforget; [exact E|exact Hd'].
Qed.

End WithCore.

Import Samples.

(** The three situations of [on_click_calc_sq] and of [on_click_refine], run
    on the sample session. *)
Example calc_sq_without_data :
  run (on_click_calc_sq (core := sample_core) sample_elements sample_widgets)
      (<["cor_x_cut" := PArr []]> sample_curve) =
  {| out_data := <["cor_x_cut" := PArr []]> sample_curve;
     out_trace := []; out_exn := None |}.
Proof. vm_compute. reflexivity. Qed.

Example calc_sq_cosine_without_start :
  out_exn (run (on_click_calc_sq (core := sample_core) sample_elements
                  cosine_widgets) sample_cut) = None /\
  out_trace (run (on_click_calc_sq (core := sample_core) sample_elements
                    cosine_widgets) sample_cut) = [Print cosine_hint] /\
  out_data (run (on_click_calc_sq (core := sample_core) sample_elements
                   cosine_widgets) sample_cut) !! "sq_y" = Some (PArr []).
Proof. vm_compute. repeat split; reflexivity. Qed.

Example refine_cosine_without_start :
  out_exn (run (on_click_refine (core := sample_core)
                  (scipy := sample_scipy) sample_elements cosine_widgets)
               sample_session) = None /\
  out_trace (run (on_click_refine (core := sample_core)
                    (scipy := sample_scipy) sample_elements cosine_widgets)
                 sample_session) = [Print cosine_hint] /\
  out_data (run (on_click_refine (core := sample_core)
                   (scipy := sample_scipy) sample_elements cosine_widgets)
                sample_session) !! "chi_sq" = None.
Proof. vm_compute. repeat split; reflexivity. Qed.

(** The cosine window chosen without a window start, on the sample
    session: both entry points return, and the hint is all they write. *)
Lemma entry_points_return_on_missing_input_witness :
  (out_exn (run (on_click_calc_sq (core := sample_core) sample_elements
                   cosine_widgets) sample_session) = None /\
   out_trace (run (on_click_calc_sq (core := sample_core) sample_elements
                     cosine_widgets) sample_session) = [Print cosine_hint] /\
   kept ["sq_y"; "int_func"; "fr_x"; "fr_y"] sample_session
        (out_data (run (on_click_calc_sq (core := sample_core)
                          sample_elements cosine_widgets) sample_session)) /\
   kept_or_emptied ["impr_int_func"; "impr_fr_x"; "impr_fr_y"; "impr_iq_x"]
        sample_session
        (out_data (run (on_click_calc_sq (core := sample_core)
                          sample_elements cosine_widgets) sample_session))) /\
  (out_exn (run (on_click_refine (core := sample_core)
                   (scipy := sample_scipy) sample_elements cosine_widgets)
                sample_session) = None /\
   out_trace (run (on_click_refine (core := sample_core)
                     (scipy := sample_scipy) sample_elements cosine_widgets)
                  sample_session) = [Print cosine_hint] /\
   out_data (run (on_click_refine (core := sample_core)
                    (scipy := sample_scipy) sample_elements cosine_widgets)
                 sample_session) !! "chi_sq" = None).
Proof.
  destruct (entry_points_return_on_missing_input (core := sample_core)
              (scipy := sample_scipy) sample_elements cosine_widgets
              sample_session) as [Hsq Hrefine].
  split.
  - apply (Hsq [1; 2; 3; 4]); [vm_compute; reflexivity|].
    right. right. split; [reflexivity|]. split; vm_compute; reflexivity.
  - destruct (Hrefine [30 - 1; 30 - 1; 30 - 1; 40 - 1])
      as (H1 & H2 & H3 & _); [vm_compute; reflexivity| |].
    + right. left. split; [reflexivity|vm_compute; reflexivity].
    + split; [exact H1|]. split; [exact H2|exact H3].
Defined.

(** With every input present the same handler does produce a result. *)
Example refine_with_all_input :
  out_exn (run (on_click_refine (core := sample_core)
                  (scipy := sample_scipy) sample_elements sample_widgets)
               sample_session) = None /\
  out_data (run (on_click_refine (core := sample_core)
                   (scipy := sample_scipy) sample_elements sample_widgets)
                sample_session) !! "chi_sq" = Some (PNum 0).
Proof. vm_compute. repeat split; reflexivity. Qed.

End MissingInputFacts.

(** ** The call of the density optimiser *)

Module OptimiserFacts.

Import Composition Numpy OptimUI StepFacts HandlerLogic HandlerLogicFacts
  MissingInputFacts.

Lemma run_data (m : M unit) (d : gmap string pyval) :
  out_data (run m d) = data (fst (m (W d []))).
Proof.
  unfold run. fold (W d []). destruct (m (W d [])) as [w [a| |e]]; reflexivity.
Qed.

Lemma run_trace (m : M unit) (d : gmap string pyval) :
  out_trace (run m d) = trace (fst (m (W d []))).
Proof.
  unfold run. fold (W d []). destruct (m (W d [])) as [w [a| |e]]; reflexivity.
Qed.

Lemma run_exn (m : M unit) (d : gmap string pyval) :
  out_exn (run m d) =
    match snd (m (W d [])) with
    | Throw e => Some e
    | _ => None
    end.
Proof.
  unfold run. fold (W d []). destruct (m (W d [])) as [w [a| |e]]; reflexivity.
Qed.

Section WithCore.

Context {core : Core} {scipy : SciPy}.
Variable _element_dict : dict Z.
Variable ui : widgets.

(** Up to the call of the optimiser, and from its result on. *)
Lemma refine_runs_optimiser :
  forall (d : gmap string pyval) (i : list Q) (x y ws : pyval)
         (c : composition) (_rho_0 _r_min _lb _ub : Q) (_n_iter : Z)
         (_method : string),
    d !! "int_func" = Some (PArr i) ->
    i <> [] ->
    (if String.eqb (mod_func_input ui) "Cosine-window"
     then exists w, window_start_input ui = Parsed w /\ ws = PNum w
     else d !! "window_start" = Some ws) ->
    get_composition_dict _element_dict (composition_table ui) = Ok c ->
    c <> [] ->
    sq_method ui = Some _method ->
    density_input ui = Parsed _rho_0 ->
    rmin_input ui = Parsed _r_min ->
    niter_input ui = Parsed _n_iter ->
    opt_check ui = true ->
    lb_input ui = Parsed _lb ->
    ub_input ui = Parsed _ub ->
    d !! "cor_x_cut" = Some x ->
    d !! "cor_y_cut" = Some y ->
    let call := density_search_call ui c x y ws _rho_0 _r_min _lb _ub
                  _n_iter _method in
    let before := [Print "*************************";
                   Print "Finding optimal density...";
                   Minimize call] in
    match minimize call with
    | Raise e =>
        exists d',
          on_click_refine _element_dict ui (W d []) = (W d' before, Throw e)
    | Ok r =>
        match opt_x r with
        | [] =>
            exists d',
              on_click_refine _element_dict ui (W d []) =
                (W d' before, Throw IndexError)
        | rho :: _ =>
            exists d' t' r',
              on_click_refine _element_dict ui (W d []) =
                (W d' ((before ++
                        [PrintNum "Refined density = " rho;
                         PrintNum "Chi^2 = " (opt_fun r);
                         SetText "density_output" rho]) ++ t'), r') /\
              d' !! "refined_rho" = Some (PNum rho)
        end
    end.
Proof.
  intros d i x y ws c _rho_0 _r_min _lb _ub _n_iter _method
    Hi Hne Hws Hc Hcne Hm Hrho Hrmin Hniter Hopt Hlb Hub Hx Hy call before.
  destruct i as [|i0 i']; [congruence|]. destruct c as [|kv c']; [congruence|].
  assert (Hx' : refine_forgotten d !! "cor_x_cut" = Some x)
    by (rewrite refine_forgotten_other by done; exact Hx).
  assert (Hy' : refine_forgotten d !! "cor_y_cut" = Some y)
    by (rewrite refine_forgotten_other by done; exact Hy).
  unfold on_click_refine.
  rewrite (bindM_next _ _ _ _ _ (forget_block_run d [])).
  erewrite step_get by (rewrite refine_forgotten_other by done; exact Hi).
  mstep. cbn [length Nat.eqb]. do 2 mstep. cbn [pystr_eq].
  (* the window start *)
  assert (Hstart : exists d1,
    (if String.eqb (mod_func_input ui) "Cosine-window"
     then
       try_except ValueError
         (let* ws0 := lift (np_parse (window_start_input ui)) in
          set "window_start" (PNum ws0))%py
         (emit (Print cosine_hint) >> py_return)%py
     else ret tt)
      (W (<["mod_func" := PStr (mod_func_input ui)]> (refine_forgotten d)) [])
      = (W d1 [], Next tt) /\
    d1 !! "cor_x_cut" = Some x /\
    d1 !! "cor_y_cut" = Some y /\
    d1 !! "mod_func" = Some (PStr (mod_func_input ui)) /\
    d1 !! "window_start" = Some ws).
  { destruct (String.eqb (mod_func_input ui) "Cosine-window").
    - destruct Hws as (w & Ew & ->). rewrite Ew. cbn [np_parse].
      eexists. split.
      + eapply try_except_next. mstep. apply set_run.
      + repeat split; lookup_known.
    - eexists. split; [reflexivity|].
      repeat split; try lookup_known.
      rewrite lookup_insert_ne by done.
      rewrite refine_forgotten_other by done. exact Hws. }
  destruct Hstart as (d1 & Hrun & Hx1 & Hy1 & Hmf1 & Hws1).
  rewrite (bindM_next _ _ _ _ _ Hrun). clear Hrun.
  erewrite step_lift by exact Hc. cbn [is_empty].
  rewrite Hrho, Hrmin, Hniter, Hopt, Hlb, Hub, Hm. cbn [np_parse local].
  do 3 mstep.
  rewrite bindM_assoc.
  erewrite (bindM_next (try_except _ _ _)).
  2:{ eapply try_except_next. do 2 mstep. reflexivity. }
  unfold call_minimize. repeat mstep.
  change (minimize _) with (minimize call).
  change [Print "*************************";
          Print "Finding optimal density...";
          Minimize _] with before.
  destruct (minimize call) as [r|e].
  2:{ exists d1. erewrite step_lift_raise by reflexivity. reflexivity. }
  mstep. rewrite bindM_assoc.
  destruct (opt_x r) as [|rho others].
  { exists d1. erewrite step_lift_raise by reflexivity. reflexivity. }
  repeat mstep.
  match goal with
  | |- context [?m (W ?d2 ?t2)] =>
      assert (Hkeep : keeps (fun w => agrees_on ["refined_rho"] d2 w /\
                                       begins_with t2 w) m);
        [|destruct (m (W d2 t2)) as [[d' t'] r'] eqn:E;
          pose proof (Hkeep _ _ _ E) as Hk]
  end.
  - keeps_with ltac:(
      intros [Ha Hb]; split;
        [first [apply agrees_on_set; [not_listed|exact Ha] | exact Ha]
        |first [apply begins_with_emit; exact Hb | exact Hb]]).
  - destruct Hk as [Hd' [t'' Ht']].
    { split; [apply agrees_on_refl|]. exists []. cbn [trace W].
      rewrite app_nil_r. reflexivity. }
    exists d', t'', r'. cbn [trace W] in Ht'. rewrite Ht'.
    split; [reflexivity|].
    unfold agrees_on in Hd'. cbn [data W] in Hd'.
    apply Forall_cons_1 in Hd'. destruct Hd' as [Hd' _].
    rewrite Hd'. apply lookup_insert_eq.
Qed.
(** C2.  A refinement with the density box ticked that gets as far as the
    density search calls [minimize] once, as a bounded quasi-Newton search
    (L-BFGS-B) over one number, the density, between the two bounds typed
    in, with function tolerance 2.22e-8, projected-gradient tolerance
    1e-10, at most 15000 iterations and 15000 function evaluations, and with
    the Eggert refiner in its chi-squared-only mode as objective.  What the
    handler does next is what [minimize] returns for exactly this call: its
    exception is the handler's, and the first component of the point it
    returns is stored as the refined density and written out. *)
Theorem density_optimizer_call_parameters :
  forall (d : gmap string pyval) (i : list Q) (x y ws : pyval)
         (c : composition) (_rho_0 _r_min _lb _ub : Q) (_n_iter : Z)
         (_method : string),
    d !! "int_func" = Some (PArr i) ->
    i <> [] ->
    (if String.eqb (mod_func_input ui) "Cosine-window"
     then exists w, window_start_input ui = Parsed w /\ ws = PNum w
     else d !! "window_start" = Some ws) ->
    get_composition_dict _element_dict (composition_table ui) = Ok c ->
    c <> [] ->
    sq_method ui = Some _method ->
    density_input ui = Parsed _rho_0 ->
    rmin_input ui = Parsed _r_min ->
    niter_input ui = Parsed _n_iter ->
    opt_check ui = true ->
    lb_input ui = Parsed _lb ->
    ub_input ui = Parsed _ub ->
    d !! "cor_x_cut" = Some x ->
    d !! "cor_y_cut" = Some y ->
    let call := density_search_call ui c x y ws _rho_0 _r_min _lb _ub
                  _n_iter _method in
      mc_method call = "L-BFGS-B" /\
      ftol (mc_options call) == 2.22e-8 /\
      gtol (mc_options call) == 1e-10 /\
      maxiter (mc_options call) = 15000%Z /\
      maxfun (mc_options call) = 15000%Z /\
      mc_fun call = calc_impr_interference_func /\
      mc_x0 call = _rho_0 /\
      mc_bounds call = [(_lb, _ub)] /\
      mc_args call =
        {| a_q_data := x; a_y_data := y; a_composition := c;
           a_r_min := _r_min; a_d_pq := 2.9; a_n_iter := _n_iter;
           a_method := _method; a_mod_func := PStr (mod_func_input ui);
           a_window_start := ws; a_opt_flag := 1 |} /\
      match minimize call with
      | Raise e =>
          out_exn (run (on_click_refine _element_dict ui) d) = Some e /\
          out_trace (run (on_click_refine _element_dict ui) d) =
            [Print "*************************";
             Print "Finding optimal density...";
             Minimize call]
      | Ok r =>
          match opt_x r with
          | [] =>
              out_exn (run (on_click_refine _element_dict ui) d)
                = Some IndexError /\
              out_trace (run (on_click_refine _element_dict ui) d) =
                [Print "*************************";
                 Print "Finding optimal density...";
                 Minimize call]
          | rho :: _ =>
              out_data (run (on_click_refine _element_dict ui) d)
                !! "refined_rho" = Some (PNum rho) /\
              exists t',
                out_trace (run (on_click_refine _element_dict ui) d) =
                  [Print "*************************";
                   Print "Finding optimal density...";
                   Minimize call;
                   PrintNum "Refined density = " rho;
                   PrintNum "Chi^2 = " (opt_fun r);
                   SetText "density_output" rho] ++ t'
          end
      end.
Proof.
  intros d i x y ws c _rho_0 _r_min _lb _ub _n_iter _method
    Hi Hne Hws Hc Hcne Hm Hrho Hrmin Hniter Hopt Hlb Hub Hx Hy.
  pose proof (refine_runs_optimiser d i x y ws c _rho_0 _r_min _lb _ub
                _n_iter _method Hi Hne Hws Hc Hcne Hm Hrho Hrmin Hniter
                Hopt Hlb Hub Hx Hy) as Hrun.
  cbv zeta in Hrun |- *.
  do 9 (split; [reflexivity|]).
  rewrite run_data, run_trace, run_exn.
  destruct (minimize _) as [r|e].
  - destruct (opt_x r) as [|rho others].
    + destruct Hrun as [d' ->]. split; reflexivity.
    + destruct Hrun as (d' & t' & r' & -> & Hrho'). split; [exact Hrho'|].
      exists t'. reflexivity.
  - destruct Hrun as [d' ->]. split; reflexivity.
Qed.

End WithCore.

Import Samples.

Example sample_session_has_int_func :
  sample_session !! "int_func" = Some (PArr [30 - 1; 30 - 1; 30 - 1; 40 - 1]).
Proof. vm_compute. reflexivity. Qed.

(** The sample session, refined with a stand-in optimiser that answers
    with its starting point. *)
Lemma density_optimizer_call_parameters_witness :
  mc_method sample_call = "L-BFGS-B" /\
  ftol (mc_options sample_call) == 2.22e-8 /\
  gtol (mc_options sample_call) == 1e-10 /\
  maxiter (mc_options sample_call) = 15000%Z /\
  maxfun (mc_options sample_call) = 15000%Z /\
  mc_fun sample_call = calc_impr_interference_func (Core := sample_core) /\
  mc_x0 sample_call = 0.05 /\
  mc_bounds sample_call = [(0.01, 0.1)] /\
  a_opt_flag (mc_args sample_call) = 1%Z /\
  out_data (run (on_click_refine (core := sample_core)
                   (scipy := sample_scipy) sample_elements sample_widgets)
                sample_session) !! "refined_rho" = Some (PNum 0.05) /\
  exists t',
    out_trace (run (on_click_refine (core := sample_core)
                      (scipy := sample_scipy) sample_elements
                      sample_widgets)
                   sample_session) =
      [Print "*************************";
       Print "Finding optimal density...";
       Minimize sample_call;
       PrintNum "Refined density = " 0.05;
       PrintNum "Chi^2 = " 0;
       SetText "density_output" 0.05] ++ t'.
Proof.
  pose proof (density_optimizer_call_parameters (core := sample_core)
                (scipy := sample_scipy) sample_elements sample_widgets
                sample_session [30 - 1; 30 - 1; 30 - 1; 40 - 1]
                (PArr [1; 2; 3; 4]) (PArr [30; 30; 30; 40]) PNone
                (a_composition (mc_args sample_call))
                0.05 2 0.01 0.1 5%Z "ashcroft-langreth") as H.
  destruct H as (H1 & H2 & H3 & H4 & H5 & H6 & H7 & H8 & H9 & H10);
    try (vm_compute; reflexivity); try discriminate.
  do 9 (split; [assumption || reflexivity|]).
  exact H10.
Defined.

End OptimiserFacts.

(** ** The core as described: modification function and Eggert loop *)

Module CoreSpecFacts.

Import CoreSpec.

Local Open Scope R_scope.

Lemma lookup_map {A B : Type} (f : A -> B) (l : list A) (i : nat) :
  map f l !! i = option_map f (l !! i).
Proof.
  revert i. induction l as [|a l IH]; intros [|i]; simpl; auto.
Qed.

Lemma fold_left_Rmax_ge_acc (l : list R) (a : R) : a <= fold_left Rmax l a.
Proof.
  revert a. induction l as [|x l IH]; intros a; simpl.
  - rlra.
  - eapply Rle_trans; [apply (Rmax_l a x)|apply IH].
Qed.

Lemma fold_left_Rmax_ge_elem (l : list R) (a x : R) :
  In x l -> x <= fold_left Rmax l a.
Proof.
  revert a. induction l as [|y l IH]; intros a Hin; simpl in *; [contradiction|].
  destruct Hin as [->|Hin].
  - eapply Rle_trans; [apply (Rmax_r a x)|apply fold_left_Rmax_ge_acc].
  - apply IH, Hin.
Qed.

Lemma Qmax_upper_bound (qs : list R) (i : nat) (q : R) :
  qs !! i = Some q -> q <= Qmax qs.
Proof.
  intros Hi. destruct qs as [|q0 rest]; [discriminate|]. unfold Qmax.
  destruct i as [|i]; simpl in Hi.
  - injection Hi as <-. apply fold_left_Rmax_ge_acc.
  - apply fold_left_Rmax_ge_elem. apply list_elem_of_In.
    eapply list_elem_of_lookup_2. exact Hi.
Qed.

Lemma cosine_window_below (w q_max q : R) :
  q < w -> cosine_window w q_max q = 1.
Proof.
  intros H. unfold cosine_window. destruct (Rlt_dec q w); [reflexivity|rlra].
Qed.

Lemma cosine_window_range (w q_max q : R) :
  0 <= cosine_window w q_max q <= 1.
Proof.
  unfold cosine_window.
  destruct (Rlt_dec q w); [rlra|]. destruct (Rle_dec q_max w); [rlra|].
  pose proof (COS_bound (PI * ((q - w) / (q_max - w)))) as [Hlo Hhi]. rlra.
Qed.

Lemma cosine_window_at_q_max (w q_max : R) :
  w < q_max -> cosine_window w q_max q_max = 0.
Proof.
  intros H. unfold cosine_window.
  destruct (Rlt_dec q_max w); [rlra|]. destruct (Rle_dec q_max w); [rlra|].
  replace ((q_max - w) / (q_max - w)) with 1 by (field; rlra).
  rewrite Rmult_1_r, cos_PI. rlra.
Qed.

Lemma taper_fraction (w q_max q : R) :
  w < q_max -> w <= q -> q <= q_max ->
  0 <= PI * ((q - w) / (q_max - w)) <= PI.
Proof.
  intros Hw Hq Hm. pose proof PI_RGT_0 as Hpi.
  assert (Hd : 0 < / (q_max - w)) by (apply Rinv_0_lt_compat; rlra).
  assert (H0 : 0 <= (q - w) / (q_max - w)).
  { unfold Rdiv. apply Rmult_le_pos; rlra. }
  assert (H1 : (q - w) / (q_max - w) <= 1).
  { apply Rmult_le_reg_r with (r := q_max - w); [rlra|].
    unfold Rdiv. rewrite Rmult_assoc, Rinv_l by rlra. rlra. }
  split.
  - apply Rmult_le_pos; rlra.
  - rewrite <- (Rmult_1_r PI) at 2. apply Rmult_le_compat_l; rlra.
Qed.

Lemma cosine_window_decreasing (w q_max q1 q2 : R) :
  w <= q1 -> q1 <= q2 -> q2 <= q_max ->
  cosine_window w q_max q2 <= cosine_window w q_max q1.
Proof.
  intros H1 H12 H2. unfold cosine_window.
  destruct (Rlt_dec q2 w); [rlra|]. destruct (Rlt_dec q1 w); [rlra|].
  destruct (Rle_dec q_max w); [rlra|].
  assert (Hw : w < q_max) by rlra.
  destruct (taper_fraction w q_max q1 Hw) as [A1 B1]; [rlra|rlra|].
  destruct (taper_fraction w q_max q2 Hw) as [A2 B2]; [rlra|rlra|].
  assert (Hcos : cos (PI * ((q2 - w) / (q_max - w)))
                 <= cos (PI * ((q1 - w) / (q_max - w)))).
  { apply cos_decr_1; try assumption.
    apply Rmult_le_compat_l; [pose proof PI_RGT_0; rlra|].
    unfold Rdiv. apply Rmult_le_compat_r; [|rlra].
    left. apply Rinv_0_lt_compat. rlra. }
  rlra.
Qed.

(** C4.  The cosine-window envelope over any Q sequence: one value per Q,
    each in [0, 1]; exactly 1 wherever Q is strictly below the window
    start; non-increasing in Q among the Q at or above the window start;
    and 0 at Qmax when the window starts below Qmax. *)
Theorem cosine_window_modification_profile :
  forall (qs : list R) (window_start : R),
  exists m,
    modification_function qs CosineWindow (Some window_start) = Some m /\
    length m = length qs /\
    (forall i q v,
       qs !! i = Some q -> m !! i = Some v ->
       0 <= v <= 1 /\
       (q < window_start -> v = 1) /\
       (window_start < Qmax qs -> q = Qmax qs -> v = 0)) /\
    (forall i j qi qj vi vj,
       qs !! i = Some qi -> qs !! j = Some qj ->
       m !! i = Some vi -> m !! j = Some vj ->
       window_start <= qi -> qi <= qj -> vj <= vi).
Proof.
  intros qs w. eexists. split; [reflexivity|]. split; [apply length_map|].
  split.
  - intros i q v Hq Hv. rewrite lookup_map, Hq in Hv. injection Hv as <-.
    split; [apply cosine_window_range|]. split.
    + apply cosine_window_below.
    + intros Hw ->. apply cosine_window_at_q_max, Hw.
  - intros i j qi qj vi vj Hi Hj Hvi Hvj Hw Hij.
    rewrite lookup_map, Hi in Hvi. rewrite lookup_map, Hj in Hvj.
    injection Hvi as <-. injection Hvj as <-.
    apply cosine_window_decreasing; [exact Hw|exact Hij|].
    eapply Qmax_upper_bound, Hj.
Qed.

Section EggertFacts.

Variables intensity curve rcurve scalar : Type.
Variable structure_factor : intensity -> curve.
Variable S_inf : curve.
Variable transform : curve -> rcurve.
Variable violation : rcurve -> rcurve.
Variable back_transform : rcurve -> curve.
Variable subtract : curve -> curve -> curve.
Variable chi_squared : rcurve -> scalar.

Local Abbreviation i_of :=
  (interference_function intensity curve structure_factor S_inf subtract).
Local Abbreviation corrected :=
  (CoreSpec.corrected curve rcurve transform violation back_transform
     subtract).
Local Abbreviation step :=
  (correction_step curve rcurve transform violation back_transform subtract).
Local Abbreviation loop :=
  (iterate curve rcurve transform violation back_transform subtract).
Local Abbreviation refine :=
  (eggert_refine intensity curve rcurve scalar structure_factor S_inf
     transform violation back_transform subtract chi_squared).
Local Abbreviation refiner :=
  (calc_impr_interference_func intensity curve rcurve scalar
     structure_factor S_inf transform violation back_transform subtract
     chi_squared).

Lemma iterate_counts (n : nat) (s : refiner_state curve) :
  corrections curve (loop n s) = (corrections curve s + n)%nat /\
  i_Q curve (loop n s) = Nat.iter n corrected (i_Q curve s).
Proof.
  revert s. induction n as [|n IH]; intros s.
  - simpl. split; [lia|reflexivity].
  - cbn [iterate]. destruct (IH (step s)) as [Hc Hi].
    rewrite Hc, Hi. cbn [correction_step corrections i_Q]. split; [lia|].
    rewrite Nat.iter_succ_r. reflexivity.
Qed.

(** C1.  With [n_iter = 0] the refiner makes no correction: the curve it
    holds and returns is the unrefined i(Q), and chi-squared is computed
    from that curve directly.  For every [n_iter] the loop body runs exactly
    [n_iter] times, whatever the curves are: the result is the
    [n_iter]-fold correction of the unrefined i(Q), and chi-squared is
    computed from it. *)
Theorem eggert_runs_exactly_n_iter :
  forall (input : intensity),
    refine input O =
      ({| i_Q := i_of input; corrections := O |},
       chi_squared (violation (transform (i_of input)))) /\
    refiner input O true =
      (None, chi_squared (violation (transform (i_of input)))) /\
    refiner input O false =
      (Some (i_of input), chi_squared (violation (transform (i_of input)))) /\
    (forall n_iter,
       corrections curve (fst (refine input n_iter)) = n_iter /\
       i_Q curve (fst (refine input n_iter)) =
         Nat.iter n_iter corrected (i_of input) /\
       snd (refine input n_iter) =
         chi_squared
           (violation (transform (Nat.iter n_iter corrected (i_of input))))).
Proof.
  intros input. do 3 (split; [reflexivity|]). intros n_iter.
  unfold eggert_refine. cbn [fst snd].
  destruct (iterate_counts n_iter {| i_Q := i_of input; corrections := O |})
    as [Hc Hi].
  cbn [corrections i_Q] in Hc, Hi. rewrite Hc, Hi.
  split; [lia|]. split; reflexivity.
Qed.

End EggertFacts.

End CoreSpecFacts.

(** ** Tables that cannot be turned into a mapping *)

Module CompositionErrorFacts.

Import Composition CompositionLookup CompositionFacts Samples.

(** A float that compares equal to zero is [0.0] or [-0.0]. *)
Lemma float_zero_cases (x : float) :
  (x =? 0)%float = true -> x = 0%float \/ x = (-0)%float.
Proof.
  rewrite FloatAxioms.eqb_spec. intros H.
  rewrite <- (FloatAxioms.SF2Prim_Prim2SF x).
  destruct (Prim2SF x) as [[|]| [|] | | s m e]; try discriminate H.
  - right. reflexivity.
  - left. reflexivity.
  - destruct s; discriminate H.
Qed.

Lemma py_sum_zeros (l : list float) :
  Forall (fun x => (x =? 0)%float = true) l -> py_sum l = 0%float.
Proof.
  unfold py_sum.
  assert (H : forall l' a, a = 0%float ->
            Forall (fun x => (x =? 0)%float = true) l' ->
            fold_left PrimFloat.add l' a = 0%float).
  { induction l' as [|x l' IH]; intros a Ha Hl; [exact Ha|].
    inversion Hl as [|? ? Hx Hrest]; subst. cbn [fold_left]. apply IH.
    - destruct (float_zero_cases x Hx) as [-> | ->]; reflexivity.
    - exact Hrest. }
  intros Hl. apply H; [reflexivity|exact Hl].
Qed.

Section Rows.

Variable _element_dict : dict Z.

(** A row whose atomic number is not in the periodic table makes
    [get_composition_dict] raise [ValueError] ([list.index] finds nothing),
    whatever the other rows hold. *)
Theorem composition_unknown_element_raises :
  forall (rows : list table_row),
    Exists (fun r => ~ In (cell_Z r) (map snd _element_dict)) rows ->
    get_composition_dict _element_dict rows = Raise ValueError.
Proof.
  intros rows Hex. unfold get_composition_dict.
  assert (Hread : forall d, read_rows _element_dict rows d = Raise ValueError).
  { induction Hex as [r rest Hr|r rest _ IH]; intros d; simpl.
    - unfold element_key. rewrite list_index_missing by exact Hr. reflexivity.
    - destruct (element_key_outcome _element_dict (cell_Z r))
        as [[k ->]| ->]; simpl; [apply IH|reflexivity]. }
  rewrite Hread. reflexivity.
Qed.

Lemma dict_update_zero (k : string) (e : entry) (d : composition) :
  (proportion e =? 0)%float = true ->
  Forall (fun kv => (proportion (snd kv) =? 0)%float = true) d ->
  Forall (fun kv => (proportion (snd kv) =? 0)%float = true)
         (dict_update k e d).
Proof.
  intros He. induction 1 as [|[k' v'] rest Hkv Hrest IH]; simpl.
  - constructor; [exact He|constructor].
  - destruct (String.eqb k' k).
    + constructor; [exact He|exact Hrest].
    + constructor; [exact Hkv|exact IH].
Qed.

Lemma read_rows_zero (rows : list table_row) :
  Forall (fun r => (cell_n r =? 0)%float = true) rows ->
  forall d d',
    Forall (fun kv => (proportion (snd kv) =? 0)%float = true) d ->
    read_rows _element_dict rows d = Ok d' ->
    Forall (fun kv => (proportion (snd kv) =? 0)%float = true) d'.
Proof.
  induction 1 as [|r rest Hr _ IH]; intros d d' Hd Hread; simpl in Hread.
  - congruence.
  - destruct (element_key _element_dict (cell_Z r)) as [k|e]; simpl in Hread;
      [|discriminate].
    eapply IH; [|exact Hread]. apply dict_update_zero; assumption.
Qed.

(** A table of known elements whose amounts are all zero ([0.0] or
    [-0.0]) makes [get_composition_dict] raise [ZeroDivisionError]: the
    total is zero and the first amount is divided by it. *)
Theorem composition_zero_amounts_raise :
  forall (rows : list table_row),
    rows <> [] ->
    Forall (fun r => In (cell_Z r) (map snd _element_dict)) rows ->
    Forall (fun r => (cell_n r =? 0)%float = true) rows ->
    get_composition_dict _element_dict rows = Raise ZeroDivisionError.
Proof.
  intros rows Hne Hknown Hzero.
  destruct (read_rows_total _element_dict rows Hknown []) as [d0 Hread].
  unfold get_composition_dict. rewrite Hread. simpl.
  assert (Hd0 : d0 <> [])
    by (eapply read_rows_nonempty; [left; exact Hne|exact Hread]).
  assert (Hz : Forall (fun kv => (proportion (snd kv) =? 0)%float = true) d0)
    by (eapply read_rows_zero; [exact Hzero|constructor|exact Hread]).
  rewrite normalise_nonempty by exact Hd0.
  rewrite py_sum_zeros; [reflexivity|].
  unfold proportions. apply Forall_map. exact Hz.
Qed.

End Rows.

Lemma composition_unknown_element_raises_witness :
  Exists (fun r => ~ In (cell_Z r) (map snd sample_elements)) unknown_rows /\
  get_composition_dict sample_elements unknown_rows = Raise ValueError.
Proof.
  assert (H : Exists (fun r => ~ In (cell_Z r) (map snd sample_elements))
                     unknown_rows).
  { apply Exists_cons_tl, Exists_cons_hd. simpl. intros Hin.
    repeat (destruct Hin as [Hin|Hin]; [discriminate|]). exact Hin. }
  split; [exact H|].
  exact (composition_unknown_element_raises sample_elements unknown_rows H).
Defined.

Lemma composition_zero_amounts_raise_witness :
  zero_rows <> [] /\
  get_composition_dict sample_elements zero_rows = Raise ZeroDivisionError.
Proof.
  split; [discriminate|].
  apply (composition_zero_amounts_raise sample_elements zero_rows).
  - discriminate.
  - repeat constructor; simpl; tauto.
  - repeat constructor.
Defined.

End CompositionErrorFacts.

(** ** What the handlers never touch and never call *)

Module HandlerFrameFacts.

Import Composition Numpy OptimUI HandlerLogic StepFacts HandlerLogicFacts
  MissingInputFacts Samples.

Lemma agrees_on_value (keys : list string) (d0 d : gmap string pyval)
    (t : list event) (v : pyval) :
  agrees_on keys d0 (W d t) ->
  Forall (fun k => d0 !! k = Some v) keys ->
  Forall (fun k => d !! k = Some v) keys.
Proof.
  unfold agrees_on. cbn [data W]. rewrite !List.Forall_forall.
  intros Hd Hv k Hin. rewrite (Hd k Hin). exact (Hv k Hin).
Qed.

Ltac each_entry :=
  repeat match goal with
         | |- Forall _ (_ :: _) => constructor
         | |- Forall _ [] => constructor
         end.

Section WithCore.

Context {core : Core} {scipy : SciPy}.
Variable _element_dict : dict Z.

(** However [plot_data] ends (also when a cut-off text cannot be read or
    the smoothing filter raises), the loaded curve is untouched and S(Q),
    i(Q), F(r) and their refined versions are empty afterwards. *)
Theorem plot_data_resets_results :
  forall (ui : widgets) (d : gmap string pyval),
    Forall (fun k => out_data (run (plot_data ui) d) !! k = d !! k)
           ["cor_x"; "cor_y"] /\
    Forall (fun k => out_data (run (plot_data ui) d) !! k = Some (PArr []))
           derived_keys.
Proof.
  intros ui d. split.
  - apply run_agrees.
    unfold plot_data, qmax_block, qmin_block, smooth_checked.
    keeps_with frame_side.
  - unfold run. fold (W d []). unfold plot_data. do 11 mstep.
    match goal with
    | |- context [?m (W ?d1 [])] =>
        assert (Hk : keeps (agrees_on derived_keys d1) m);
          [|destruct (m (W d1 [])) as [[d' t'] r] eqn:E;
            pose proof (Hk _ _ _ E (agrees_on_refl _ _ _)) as Hd']
    end.
    + unfold qmax_block, qmin_block, smooth_checked.
      keeps_with frame_side.
    + assert (Hfin : Forall (fun k => d' !! k = Some (PArr [])) derived_keys).
      { eapply agrees_on_value; [exact Hd'|].
        unfold derived_keys. each_entry; lookup_known. }
      destruct r; exact Hfin.
Qed.

(** [on_click_calc_sq] never changes the loaded or the cut curve, however
    it ends. *)
Theorem calc_sq_leaves_input_curve :
  forall (ui : widgets) (d : gmap string pyval),
    Forall (fun k =>
              out_data (run (on_click_calc_sq _element_dict ui) d) !! k
                = d !! k)
           input_keys.
Proof.
  intros ui d. apply run_agrees.
  unfold on_click_calc_sq. keeps_with frame_side.
Qed.

(** [on_click_refine] never changes the loaded curve, the cut curve, S(Q),
    i(Q) or F(r), however it ends: a refinement only adds to the unrefined
    results. *)
Theorem refine_leaves_unrefined_results :
  forall (ui : widgets) (d : gmap string pyval),
    Forall (fun k =>
              out_data (run (on_click_refine _element_dict ui) d) !! k
                = d !! k)
           unrefined_keys.
Proof.
  intros ui d. apply run_agrees.
  unfold on_click_refine, call_minimize. keeps_with frame_side.
Qed.


(** With data present, [on_click_calc_sq] passes on whatever reading the
    composition table raises, before it looks at anything else: nothing is
    stored, nothing is written out.  (So a table that cannot be read stops
    it with an exception even when the window start is missing as well.) *)
Theorem calc_sq_passes_on_table_error :
  forall (ui : widgets) (d : gmap string pyval) (x : list Q) (e : exn),
    d !! "cor_x_cut" = Some (PArr x) ->
    x <> [] ->
    get_composition_dict _element_dict (composition_table ui) = Raise e ->
    run (on_click_calc_sq _element_dict ui) d =
      {| out_data := d; out_trace := []; out_exn := Some e |}.
Proof.
  intros ui d x e Hx Hne Hc. destruct x as [|x0 x']; [congruence|].
  unfold run. fold (W d []). unfold on_click_calc_sq. do 2 mstep.
  cbn [length Nat.eqb]. erewrite step_lift_raise by exact Hc. reflexivity.
Qed.

End WithCore.


Lemma calc_sq_passes_on_table_error_witness :
  run (on_click_calc_sq (core := sample_core) sample_elements
         zero_amount_widgets) sample_cut =
    {| out_data := sample_cut; out_trace := [];
       out_exn := Some ZeroDivisionError |}.
Proof.
  apply (calc_sq_passes_on_table_error (core := sample_core) sample_elements
           zero_amount_widgets sample_cut [1; 2; 3; 4]).
  - vm_compute. reflexivity.
  - discriminate.
  - vm_compute. reflexivity.
Defined.

End HandlerFrameFacts.

(** ** Cuts and smoothing: edge cases *)

Module CutEdgeFacts.

Import Composition Numpy NumpyFacts OptimUI CutFacts StepFacts HandlerLogic
  HandlerLogicFacts Samples.

(** Indexing with the positions of a mask keeps the entries paired with a
    true mask value. *)
Lemma take_indices_mask {A B : Type} (P : A -> bool) (xs : list A)
    (ys pre : list B) :
  length xs = length ys ->
  take_indices (pre ++ ys) (where_from (length pre) (map P xs)) =
    Ok (map snd (List.filter (fun p => P (fst p)) (combine xs ys))).
Proof.
  revert ys pre. induction xs as [|x xs IH]; intros ys pre Hlen.
  - reflexivity.
  - destruct ys as [|y ys]; [discriminate|]. simpl in Hlen.
    cbn [map where_from combine List.filter fst].
    assert (Hrest :
      take_indices (pre ++ y :: ys) (where_from (S (length pre)) (map P xs)) =
        Ok (map snd (List.filter (fun p => P (fst p)) (combine xs ys)))).
    { specialize (IH ys (pre ++ [y])).
      rewrite length_app, <- app_assoc in IH. simpl in IH.
      replace (length pre + 1)%nat with (S (length pre)) in IH by lia.
      apply IH. lia. }
    destruct (P x).
    + cbn [take_indices]. unfold getitem.
      rewrite lookup_app_r by lia. rewrite Nat.sub_diag. cbn [lookup].
      simpl. rewrite Hrest. reflexivity.
    + exact Hrest.
Qed.

Lemma take_indices_filter {A : Type} (P : A -> bool) (xs : list A) :
  take_indices xs (np_where (map P xs)) = Ok (List.filter P xs).
Proof.
  unfold np_where.
  change (take_indices xs (where_from O (map P xs)))
    with (take_indices ([] ++ xs) (where_from (length (@nil A)) (map P xs))).
  rewrite (take_indices_mask P xs xs [] eq_refl). f_equal.
  induction xs as [|x xs IH]; [reflexivity|].
  cbn [combine List.filter fst]. destruct (P x); cbn [map snd];
    rewrite IH; reflexivity.
Qed.

Section WithSciPy.

Context {scipy : SciPy}.

(** The q-max cut alone, on any curve (sorted or not): [plot_data] keeps
    exactly the points whose Q is below q-max, Q and intensity together and
    in their order, replots once and marks the modification as 1. *)
Theorem plot_data_qmax_cut_keeps_pairs :
  forall (ui : widgets) (d : gmap string pyval) (cor_x cor_y : list Q)
         (_qmax : Q),
    d !! "cor_x" = Some (PArr cor_x) ->
    d !! "cor_y" = Some (PArr cor_y) ->
    length cor_x = length cor_y ->
    qmax_check ui = true ->
    qmax_input ui = Parsed _qmax ->
    qmin_check ui && text_truthy (qmin_input ui) = false ->
    smooth_data_check ui = false ->
    let kept_points :=
      List.filter (fun p => Qltb (fst p) _qmax) (combine cor_x cor_y) in
    out_exn (run (plot_data ui) d) = None /\
    out_data (run (plot_data ui) d) !! "cor_x_cut"
      = Some (PArr (map fst kept_points)) /\
    out_data (run (plot_data ui) d) !! "cor_y_cut"
      = Some (PArr (map snd kept_points)) /\
    out_data (run (plot_data ui) d) !! "modification" = Some (PNum 1) /\
    out_trace (run (plot_data ui) d)
      = [UpdatePlots (out_data (run (plot_data ui) d))].
Proof.
  intros ui d cor_x cor_y _qmax Hx Hy Hlen Hc Hq Hmin Hs kept_points.
  assert (Ex : take_indices cor_x
                 (np_where (map (fun x => Qltb x _qmax) cor_x))
               = Ok (map fst kept_points)).
  { rewrite take_indices_filter. f_equal. subst kept_points.
    clear -Hlen. revert cor_y Hlen.
    induction cor_x as [|x xs IH]; intros [|y ys] Hlen; try discriminate;
      [reflexivity|].
    cbn [combine List.filter fst]. simpl in Hlen.
    destruct (Qltb x _qmax); cbn [map fst]; rewrite (IH ys) by lia;
      reflexivity. }
  assert (Ey : take_indices cor_y
                 (np_where (map (fun x => Qltb x _qmax) cor_x))
               = Ok (map snd kept_points)).
  { exact (take_indices_mask (fun x => Qltb x _qmax) cor_x cor_y [] Hlen). }
  unfold run, plot_data. fold (W d []). do 11 mstep.
  unfold qmax_block. rewrite Hc, Hq. cbn [andb text_truthy np_parse].
  repeat mstep. erewrite step_lift by exact Ex. repeat mstep.
  erewrite step_lift by exact Ey. repeat mstep.
  unfold qmin_block. rewrite Hmin. repeat mstep. rewrite Hs.
  rewrite update_plots_run. cbn [out_exn out_data out_trace data trace W].
  split; [reflexivity|].
  split; [lookup_known|]. split; [lookup_known|]. split; [lookup_known|].
  reflexivity.
Qed.

(** A q-max box that is ticked and holds a text that is not a number makes
    [plot_data] raise [ValueError]: nothing is plotted, and the cut arrays
    are left empty. *)
Theorem plot_data_unreadable_qmax_raises :
  forall (ui : widgets) (d : gmap string pyval),
    qmax_check ui = true ->
    qmax_input ui = Garbage ->
    out_exn (run (plot_data ui) d) = Some ValueError /\
    out_trace (run (plot_data ui) d) = [] /\
    out_data (run (plot_data ui) d) !! "cor_x_cut" = Some (PArr []) /\
    out_data (run (plot_data ui) d) !! "cor_y_cut" = Some (PArr []).
Proof.
  intros ui d Hc Hq.
  unfold run, plot_data. fold (W d []). do 11 mstep.
  unfold qmax_block. rewrite Hc, Hq. cbn [andb text_truthy np_parse].
  rewrite bindM_assoc. erewrite step_lift_raise by reflexivity.
  cbn [out_exn out_data out_trace data trace W].
  split; [reflexivity|]. split; [reflexivity|].
  split; lookup_known.
Qed.

(** [smooth_check_toggled] with the box ticked gives up without touching
    the data and without replotting when there is no cut curve, when the
    window length or the polynomial order is not a number, or when the
    order is not below the window length; only the last is reported, by a
    warning on the console. *)
Theorem smoothing_gives_up_on_bad_settings :
  forall (ui : widgets) (d : gmap string pyval) (y : list Q),
    smooth_data_check ui = true ->
    d !! "cor_y_cut" = Some (PArr y) ->
    (y = [] \/
     raises (np_parse (window_length_input ui)) = true \/
     raises (np_parse (poly_order_input ui)) = true ->
     run (smooth_check_toggled ui) d =
       {| out_data := d; out_trace := []; out_exn := None |}) /\
    (forall _window_length _poly_order,
       y <> [] ->
       window_length_input ui = Parsed _window_length ->
       poly_order_input ui = Parsed _poly_order ->
       (_poly_order >= _window_length)%Z ->
       run (smooth_check_toggled ui) d =
         {| out_data := d;
            out_trace :=
              [Print "Warning: polyorder must be less than window_length"];
            out_exn := None |}).
Proof.
  intros ui d y Hs Hy. split.
  - intros Hbad. unfold run. fold (W d []).
    unfold smooth_check_toggled, smooth_checked. rewrite Hs.
    repeat mstep. destruct y as [|y0 y'].
    { reflexivity. }
    cbn [length Nat.eqb]. repeat mstep.
    destruct Hbad as [Hnil|[Hwl|Hpo]]; [discriminate| |].
    + erewrite (bindM_return (try_except _ _ _) _ (W d []) (W d []));
        [reflexivity|].
      apply try_except_caught with (w' := W d []).
      erewrite step_lift_raise by (apply MissingInputFacts.np_parse_raises, Hwl).
      reflexivity.
    + erewrite (bindM_return (try_except _ _ _) _ (W d []) (W d []));
        [reflexivity|].
      apply try_except_caught with (w' := W d []).
      destruct (np_parse (window_length_input ui)) as [wl|e] eqn:Ewl.
      * mstep.
        erewrite step_lift_raise
          by (apply MissingInputFacts.np_parse_raises, Hpo).
        reflexivity.
      * assert (e = ValueError) as ->.
        { destruct (window_length_input ui); simpl in Ewl; congruence. }
        reflexivity.
  - intros wl po Hne Hwl Hpo Hge. unfold run. fold (W d []).
    unfold smooth_check_toggled, smooth_checked. rewrite Hs.
    repeat mstep. destruct y as [|y0 y']; [congruence|].
    cbn [length Nat.eqb]. repeat mstep.
    erewrite (bindM_next (try_except _ _ _)).
    2:{ eapply try_except_next. rewrite Hwl, Hpo. cbn [np_parse].
        do 2 mstep. reflexivity. }
    cbn [fst snd].
    destruct (Z.geb_spec po wl) as [_|Hlt]; [|lia].
    do 2 mstep. reflexivity.
Qed.

(** With usable settings [smooth_check_toggled] hands the cut intensities
    to the Savitzky-Golay filter with the window length and the order typed
    in, stores what the filter returns and replots once; an exception of
    the filter is passed on, with nothing stored and nothing plotted. *)
Theorem smoothing_applies_filter :
  forall (ui : widgets) (d : gmap string pyval) (y : list Q)
         (_window_length _poly_order : Z),
    smooth_data_check ui = true ->
    d !! "cor_y_cut" = Some (PArr y) ->
    y <> [] ->
    window_length_input ui = Parsed _window_length ->
    poly_order_input ui = Parsed _poly_order ->
    (_poly_order < _window_length)%Z ->
    run (smooth_check_toggled ui) d =
      match savgol_filter y _window_length _poly_order with
      | Ok smoothed =>
          {| out_data := <["cor_y_cut" := PArr smoothed]> d;
             out_trace := [UpdatePlots (<["cor_y_cut" := PArr smoothed]> d)];
             out_exn := None |}
      | Raise e =>
          {| out_data := d; out_trace := []; out_exn := Some e |}
      end.
Proof.
  intros ui d y wl po Hs Hy Hne Hwl Hpo Hlt. unfold run. fold (W d []).
  unfold smooth_check_toggled, smooth_checked. rewrite Hs.
  repeat mstep. destruct y as [|y0 y']; [congruence|].
  cbn [length Nat.eqb]. repeat mstep.
  erewrite (bindM_next (try_except _ _ _)).
  2:{ eapply try_except_next. rewrite Hwl, Hpo. cbn [np_parse].
      do 2 mstep. reflexivity. }
  cbn [fst snd].
  destruct (Z.geb_spec po wl) as [Hge|_]; [lia|].
  repeat mstep.
  change (DataManip.smooth_data savgol_filter (y0 :: y') None (Some wl)
            (Some po))
    with (bind (savgol_filter (y0 :: y') wl po) (fun y => Ok (Some y))).
  destruct (savgol_filter (y0 :: y') wl po) as [smoothed|e].
  - cbn [bind]. repeat mstep.
    rewrite update_plots_run. reflexivity.
  - reflexivity.
Qed.

End WithSciPy.

(** A curve that goes back in Q, cut at q-max 3. *)
Lemma plot_data_qmax_cut_keeps_pairs_witness :
  out_exn (run (plot_data (scipy := sample_scipy)
                  (data_options true (Parsed 3) false false
                     (Parsed 5%Z) (Parsed 3%Z)))
               (<["cor_x" := PArr [1; 4; 2; 5]]>
                  (<["cor_y" := PArr [10; 40; 20; 50]]> ∅))) = None /\
  out_data (run (plot_data (scipy := sample_scipy)
                   (data_options true (Parsed 3) false false
                      (Parsed 5%Z) (Parsed 3%Z)))
                (<["cor_x" := PArr [1; 4; 2; 5]]>
                   (<["cor_y" := PArr [10; 40; 20; 50]]> ∅))) !! "cor_x_cut"
    = Some (PArr [1; 2]) /\
  out_data (run (plot_data (scipy := sample_scipy)
                   (data_options true (Parsed 3) false false
                      (Parsed 5%Z) (Parsed 3%Z)))
                (<["cor_x" := PArr [1; 4; 2; 5]]>
                   (<["cor_y" := PArr [10; 40; 20; 50]]> ∅))) !! "cor_y_cut"
    = Some (PArr [10; 20]).
Proof.
  destruct (plot_data_qmax_cut_keeps_pairs (scipy := sample_scipy)
              (data_options true (Parsed 3) false false
                 (Parsed 5%Z) (Parsed 3%Z))
              (<["cor_x" := PArr [1; 4; 2; 5]]>
                 (<["cor_y" := PArr [10; 40; 20; 50]]> ∅))
              [1; 4; 2; 5] [10; 40; 20; 50] 3)
    as (H1 & H2 & H3 & _); try reflexivity.
  split; [exact H1|]. split; [exact H2|exact H3].
Defined.

Lemma plot_data_unreadable_qmax_raises_witness :
  out_exn (run (plot_data (scipy := sample_scipy)
                  (data_options true Garbage true false
                     (Parsed 5%Z) (Parsed 3%Z)))
               sample_curve) = Some ValueError /\
  out_trace (run (plot_data (scipy := sample_scipy)
                    (data_options true Garbage true false
                       (Parsed 5%Z) (Parsed 3%Z)))
                 sample_curve) = [] /\
  out_data (run (plot_data (scipy := sample_scipy)
                   (data_options true Garbage true false
                      (Parsed 5%Z) (Parsed 3%Z)))
                sample_curve) !! "cor_x_cut" = Some (PArr []) /\
  out_data (run (plot_data (scipy := sample_scipy)
                   (data_options true Garbage true false
                      (Parsed 5%Z) (Parsed 3%Z)))
                sample_curve) !! "cor_y_cut" = Some (PArr []).
Proof.
  apply (plot_data_unreadable_qmax_raises (scipy := sample_scipy)
           (data_options true Garbage true false (Parsed 5%Z) (Parsed 3%Z))
           sample_curve); reflexivity.
Defined.

(** Order 5 with window length 3, on the cut sample curve. *)
Lemma smoothing_gives_up_on_bad_settings_witness :
  run (smooth_check_toggled (scipy := sample_scipy)
         (data_options true (Parsed 5) true true (Parsed 3%Z) (Parsed 5%Z)))
      sample_cut =
    {| out_data := sample_cut;
       out_trace :=
         [Print "Warning: polyorder must be less than window_length"];
       out_exn := None |}.
Proof.
  destruct (smoothing_gives_up_on_bad_settings (scipy := sample_scipy)
              (data_options true (Parsed 5) true true
                 (Parsed 3%Z) (Parsed 5%Z))
              sample_cut [30; 30; 30; 40]) as [_ H];
    [reflexivity|vm_compute; reflexivity|].
  apply (H 3%Z 5%Z); [discriminate|reflexivity|reflexivity|lia].
Defined.

Lemma smoothing_applies_filter_witness :
  run (smooth_check_toggled (scipy := sample_scipy)
         (data_options true (Parsed 5) true true (Parsed 5%Z) (Parsed 3%Z)))
      sample_cut =
    {| out_data := <["cor_y_cut" := PArr [30; 30; 30; 40]]> sample_cut;
       out_trace :=
         [UpdatePlots (<["cor_y_cut" := PArr [30; 30; 30; 40]]> sample_cut)];
       out_exn := None |}.
Proof.
  apply (smoothing_applies_filter (scipy := sample_scipy)
           (data_options true (Parsed 5) true true (Parsed 5%Z) (Parsed 3%Z))
           sample_cut [30; 30; 30; 40] 5%Z 3%Z);
    try reflexivity; try discriminate; lia.
Defined.

End CutEdgeFacts.

(** ** A refinement that runs to its end *)

Module RefineRunFacts.

Import Composition Numpy OptimUI StepFacts HandlerLogic HandlerLogicFacts
  MissingInputFacts Samples.

Section WithCore.

Context {core : Core} {scipy : SciPy}.
Variable _element_dict : dict Z.
Variable ui : widgets.




End WithCore.



End RefineRunFacts.

(** ** An S(Q) calculation that runs to its end *)

Module CalcSqRunFacts.

Import Composition Numpy OptimUI StepFacts HandlerLogic HandlerLogicFacts
  MissingInputFacts Samples.

Section WithCore.

Context {core : Core}.
Variable _element_dict : dict Z.
Variable ui : widgets.

(** With data, a composition, a density and (for the cosine window) a
    window start, [on_click_calc_sq] stores S(Q) computed by the core with
    the formalism ticked, i(Q) as S(Q) minus the S_inf the core gives when
    asked without a formalism, and F(r) and the modification function
    computed from them; the refined curves of an earlier refinement are
    emptied, and the plot is drawn once, from the final data. *)
Theorem calc_sq_stores_results :
  forall (d : gmap string pyval) (x : list Q)
         (y ws sq _S_inf i fx fy modification : pyval)
         (c : composition) (_rho_0 : Q) (_method : string),
    d !! "cor_x_cut" = Some (PArr x) ->
    x <> [] ->
    d !! "cor_y_cut" = Some y ->
    get_composition_dict _element_dict (composition_table ui) = Ok c ->
    c <> [] ->
    (if String.eqb (mod_func_input ui) "Cosine-window"
     then exists w, window_start_input ui = Parsed w /\ ws = PNum w
     else ws = PNone) ->
    sq_method ui = Some _method ->
    density_input ui = Parsed _rho_0 ->
    calc_structure_factor (PArr x) y c _rho_0 _method = Ok sq ->
    calc_S_inf c (PArr x) None = Ok _S_inf ->
    np_sub sq _S_inf = Ok i ->
    calc_F_r (PArr x) i _rho_0 (PStr (mod_func_input ui)) ws None
      = Ok (fx, fy) ->
    get_mod_func (PArr x) (PStr (mod_func_input ui)) ws = Ok modification ->
    out_exn (run (on_click_calc_sq _element_dict ui) d) = None /\
    out_trace (run (on_click_calc_sq _element_dict ui) d) =
      [UpdatePlots (out_data (run (on_click_calc_sq _element_dict ui) d))] /\
    Forall (fun kv =>
              out_data (run (on_click_calc_sq _element_dict ui) d) !! fst kv
                = Some (snd kv))
           [("iq_x", PArr x); ("sq_y", sq); ("int_func", i);
            ("fr_x", fx); ("fr_y", fy); ("modification", modification);
            ("mod_func", PStr (mod_func_input ui)); ("window_start", ws);
            ("impr_int_func", PArr []); ("impr_fr_x", PArr []);
            ("impr_fr_y", PArr []); ("impr_iq_x", PArr [])].
Proof.
  intros d x y ws sq _S_inf i fx fy modification c _rho_0 _method
    Hx Hne Hy Hc Hcne Hws Hm Hrho Hsq Hsinf Hsub Hfr Hmod.
  destruct x as [|x0 x']; [congruence|]. destruct c as [|kv c']; [congruence|].
  unfold run. fold (W d []). unfold on_click_calc_sq.
  do 2 mstep. cbn [length Nat.eqb].
  erewrite step_lift by exact Hc. cbn [is_empty].
  do 6 mstep. cbn [pystr_eq].
  match goal with
  | |- context [bindM (if _ then _ else _) _ (W ?d0 [])] =>
      assert (Hstart :
        (if String.eqb (mod_func_input ui) "Cosine-window"
         then
           try_except ValueError
             (let* ws0 := lift (np_parse (window_start_input ui)) in
              set "window_start" (PNum ws0))%py
             (emit (Print cosine_hint) >> py_return)%py
         else set "window_start" PNone) (W d0 [])
        = (W (<["window_start" := ws]> d0) [], Next tt))
  end.
  { destruct (String.eqb (mod_func_input ui) "Cosine-window").
    - destruct Hws as (w & Ew & ->). rewrite Ew. cbn [np_parse].
      eapply try_except_next. mstep. apply set_run.
    - rewrite Hws. reflexivity. }
  rewrite (bindM_next _ _ _ _ _ Hstart). clear Hstart.
  rewrite Hrho, Hm. cbn [np_parse local].
  run_on. cbn [fst snd]. run_on.
  rewrite update_plots_run. cbn [out_exn out_trace out_data data trace W app].
  split; [reflexivity|]. split; [reflexivity|].
  repeat match goal with
         | |- Forall _ (_ :: _) =>
             constructor; [cbn [fst snd]; lookup_known|]
         | |- Forall _ [] => constructor
         end.
Qed.

End WithCore.

Lemma calc_sq_stores_results_witness :
  out_exn (run (on_click_calc_sq (core := sample_core) sample_elements
                  sample_widgets) sample_cut) = None /\
  out_trace (run (on_click_calc_sq (core := sample_core) sample_elements
                    sample_widgets) sample_cut) =
    [UpdatePlots (out_data (run (on_click_calc_sq (core := sample_core)
                                   sample_elements sample_widgets)
                                sample_cut))] /\
  Forall (fun kv =>
            out_data (run (on_click_calc_sq (core := sample_core)
                             sample_elements sample_widgets) sample_cut)
              !! fst kv = Some (snd kv))
         [("iq_x", PArr [1; 2; 3; 4]); ("sq_y", PArr [30; 30; 30; 40]);
          ("int_func", PArr [30 - 1; 30 - 1; 30 - 1; 40 - 1]);
          ("fr_x", PArr [1; 2; 3; 4]);
          ("fr_y", PArr [30 - 1; 30 - 1; 30 - 1; 40 - 1]);
          ("modification", PArr [1; 2; 3; 4]);
          ("mod_func", PStr "None"); ("window_start", PNone);
          ("impr_int_func", PArr []); ("impr_fr_x", PArr []);
          ("impr_fr_y", PArr []); ("impr_iq_x", PArr [])].
Proof.
  apply (calc_sq_stores_results (core := sample_core) sample_elements
           sample_widgets sample_cut [1; 2; 3; 4] (PArr [30; 30; 30; 40])
           PNone (PArr [30; 30; 30; 40]) (PNum 1)
           (PArr [30 - 1; 30 - 1; 30 - 1; 40 - 1])
           (PArr [1; 2; 3; 4]) (PArr [30 - 1; 30 - 1; 30 - 1; 40 - 1])
           (PArr [1; 2; 3; 4])
           (a_composition (mc_args sample_call)) 0.05 "ashcroft-langreth");
    try (vm_compute; reflexivity); discriminate.
Defined.

End CalcSqRunFacts.
